(** * Bloom: classification, seasonal context, cache and batch services

    A shallow embedding of the JavaScript services of the Blossom Watch
    front end (bloomClassification, nasaApi, dataCache, bloomDataService and
    the classifier copy of WorldMapSection.jsx), with the properties their
    specification states about them.

    A JavaScript Number is an IEEE 754 binary64 value: it is modelled by the
    kernel's primitive [float], whose operations round exactly as the
    JavaScript ones do.  Strings are [string], the cache's [Map] is a [gmap]
    keyed by strings, [Date.now()] is a reading passed in as an integer
    number of milliseconds, and a promise is modelled by its outcome. *)

From Stdlib Require Import ZArith List String Ascii Lia Sorted.
From Stdlib Require Import Floats Uint63.
From stdpp Require Import gmap strings pretty.

#[local] Set Warnings "-inexact-float".
Local Open Scope Z_scope.
Local Open Scope string_scope.

(** ** JavaScript numbers *)

Module JS.

(** [Math.max] of two numbers: [NaN] when either is [NaN]; [+0] is larger
    than [-0]. *)
Definition Math_max (a b : float) : float :=
  if is_nan a || is_nan b then nan
  else if (a <? b)%float then b
  else if (b <? a)%float then a
  else if get_sign a then b else a.

(** [Math.min] of two numbers: [NaN] when either is [NaN]; [-0] is smaller
    than [+0]. *)
Definition Math_min (a b : float) : float :=
  if is_nan a || is_nan b then nan
  else if (a <? b)%float then a
  else if (b <? a)%float then b
  else if get_sign a then a else b.

Definition Math_abs (a : float) : float := abs a.

(** The integer [z] as a number, for [|z| < 2^63]. *)
Definition of_Z (z : Z) : float :=
  match z with
  | Z0 => 0%float
  | Zpos _ => of_uint63 (Uint63.of_Z z)
  | Zneg p => (- of_uint63 (Uint63.of_Z (Zpos p)))%float
  end.

(** [Math.round]: the integer nearest to [x], ties towards +infinity;
    [NaN], the infinities and the zeros are returned unchanged, and a
    negative [x] that rounds to zero gives [-0].  The sum [x + 1/2] is
    taken exactly, on the mantissa and exponent of [x]. *)
Definition Math_round (x : float) : float :=
  match Prim2SF x with
  | S754_finite s m e =>
      if (0 <=? e)%Z then x
      else
        let d := Z.pow 2 (- e) in
        let n := if s then (- Zpos m)%Z else Zpos m in
        let r := Z.div (2 * n + d) (2 * d) in
        if (r =? 0)%Z then (if s then (-0)%float else 0%float) else of_Z r
  | _ => x
  end.

(** The two decimals of a number of hundredths, [0 <= r < 100]. *)
Definition two_digits (r : Z) : string :=
  if (r <? 10)%Z then "0" +:+ pretty r else pretty r.

(** [x.toFixed(2)] for [|x| < 10^21], the only range the thresholds of this
    program reach: the integer [n] nearest to [|x| * 100] (the larger one on
    a tie), printed with two decimals; the sign is kept when [x < 0]. *)
Definition toFixed2 (x : float) : string :=
  match Prim2SF x with
  | S754_nan => "NaN"
  | S754_infinity s => if s then "-Infinity" else "Infinity"
  | S754_zero _ => "0.00"
  | S754_finite s m e =>
      let n := if (0 <=? e)%Z then (100 * Zpos m * Z.pow 2 e)%Z
               else Z.div (200 * Zpos m + Z.pow 2 (- e)) (2 * Z.pow 2 (- e)) in
      (if s then "-" else "") +:+ pretty (Z.div n 100) +:+ "." +:+
      two_digits (Z.modulo n 100)
  end.

(** Reading a property of an object literal: an own property, else one of
    the members every object inherits from [Object.prototype] (a function
    or object, truthy, with no fields of its own interest), else
    [undefined]. *)
Inductive Lookup (A : Type) : Type :=
  | Own (a : A)
  | Inherited
  | Absent.
Arguments Own {A} a.
Arguments Inherited {A}.
Arguments Absent {A}.

Definition Object_prototype_names : list string :=
  [ "constructor"; "__defineGetter__"; "__defineSetter__"; "hasOwnProperty";
    "__lookupGetter__"; "__lookupSetter__"; "isPrototypeOf";
    "propertyIsEnumerable"; "toString"; "valueOf"; "__proto__";
    "toLocaleString" ].

Fixpoint own_property {A : Type} (fields : list (string * A)) (key : string)
  : option A :=
  match fields with
  | [] => None
  | (k, v) :: rest => if String.eqb k key then Some v else own_property rest key
  end.

Definition get_property {A : Type} (fields : list (string * A)) (key : string)
  : Lookup A :=
  match own_property fields key with
  | Some v => Own v
  | None =>
      if existsb (String.eqb key) Object_prototype_names then Inherited
      else Absent
  end.

(** How a call ends: with a value, or with a thrown error. *)
Inductive Completion (A : Type) : Type :=
  | Return (a : A)
  | Throw (e : string).
Arguments Return {A} a.
Arguments Throw {A} e.

(** A promise is modelled by what it settles to: [Return v] for a promise
    fulfilled with [v], [Throw e] for one rejected with [e].  This is the
    record [Promise.allSettled] makes of each. *)
Inductive Settled (A : Type) : Type :=
  | fulfilled (value : A)
  | rejected (reason : string).
Arguments fulfilled {A} value.
Arguments rejected {A} reason.

Definition Promise_allSettled {A : Type} (promises : list (Completion A))
  : list (Settled A) :=
  (fun p => match p with
            | Return v => fulfilled v
            | Throw e => rejected e
            end) <$> promises.

End JS.

(** ** The bloom classification service (bloomClassification) *)

Module BloomClassification.
Import JS.

Record Thresholds : Type := mkThresholds
  { dormant : float; low : float; active : float; peak : float }.

Record Classification : Type := mkClassification
  { level : string;
    intensity : string;
    color : string;
    description : string;
    ndviRange : string;
    confidence : float }.

Definition baseThresholds : Thresholds :=
  mkThresholds 0.3 0.5 0.7 0.8.

Definition seasonalAdjustments : list (string * Thresholds) :=
  [ ("Spring", mkThresholds (-0.1) (-0.05) 0 0.05);
    ("Summer", mkThresholds 0 0 0.05 0.1);
    ("Autumn", mkThresholds 0 0 0 0);
    ("Winter", mkThresholds 0.1 0.05 (-0.05) (-0.1)) ].

Definition latitudeAdjustment (latitude : float) : float :=
  if (Math_abs latitude <? 23.5)%float then 0.1%float else 0%float.

(** [seasonalAdjustments[season] || { dormant: 0, low: 0, active: 0, peak: 0 }].
    An inherited member is truthy and has none of the four fields: each
    reads as [undefined], which the sums below turn into [NaN]. *)
Definition adjustments (season : string) : Thresholds :=
  match get_property seasonalAdjustments season with
  | Own a => a
  | Inherited => mkThresholds nan nan nan nan
  | Absent => mkThresholds 0 0 0 0
  end.

Definition thresholds (season : string) (latitude : float) : Thresholds :=
  let adj := adjustments season in
  let lat := latitudeAdjustment latitude in
  mkThresholds
    (Math_max 0.1 (dormant baseThresholds + dormant adj + lat)%float)
    (Math_max 0.2 (low baseThresholds + low adj + lat)%float)
    (Math_max 0.3 (active baseThresholds + active adj + lat)%float)
    (Math_max 0.4 (peak baseThresholds + peak adj + lat)%float).

Definition calculateConfidence (ndvi threshold : float) : float :=
  let distance := Math_abs (ndvi - threshold)%float in
  let confidence := Math_max 0.6 (1 - distance * 2)%float in
  Math_round (confidence * 100)%float.

Definition classifyBloomIntensity (ndvi : float) (season : string)
    (latitude : float) : Classification :=
  let t := thresholds season latitude in
  if (peak t <=? ndvi)%float then
    mkClassification "Peak Bloom" "Very High" "#10B981"
      "Exceptional flowering activity with maximum vegetation health"
      (toFixed2 (peak t) +:+ "+")
      (calculateConfidence ndvi (peak t))
  else if (active t <=? ndvi)%float then
    mkClassification "Active Bloom" "High" "#34D399"
      "Strong flowering activity with healthy vegetation growth"
      (toFixed2 (active t) +:+ "-" +:+ toFixed2 (peak t))
      (calculateConfidence ndvi (active t))
  else if (low t <=? ndvi)%float then
    mkClassification "Low Bloom" "Medium" "#FBBF24"
      "Moderate flowering activity with developing vegetation"
      (toFixed2 (low t) +:+ "-" +:+ toFixed2 (active t))
      (calculateConfidence ndvi (low t))
  else
    mkClassification "Dormant" "Low" "#6B7280"
      "Minimal flowering activity, vegetation in dormant phase"
      ("0-" +:+ toFixed2 (low t))
      (calculateConfidence ndvi 0.1).

(** The chain of tests alone, which decides the level. *)
Definition level_by_tests (t : Thresholds) (ndvi : float) : string :=
  if (peak t <=? ndvi)%float then "Peak Bloom"
  else if (active t <=? ndvi)%float then "Active Bloom"
  else if (low t <=? ndvi)%float then "Low Bloom"
  else "Dormant".

End BloomClassification.

(** ** The classifier copy of the map component (WorldMapSection.jsx) *)

Module WorldMapSection.
Import JS.

Record SeasonThresholds : Type := mkSeasonThresholds
  { dormant : float; low : float; active : float; peak : float }.

Record Classification : Type := mkClassification
  { level : string;
    color : string;
    description : string;
    ndviRange : string;
    confidence : float }.

Definition Spring_thresholds : SeasonThresholds :=
  mkSeasonThresholds 0.3 0.5 0.7 0.8.

Definition thresholds : list (string * SeasonThresholds) :=
  [ ("Spring", Spring_thresholds);
    ("Summer", mkSeasonThresholds 0.4 0.6 0.8 0.85);
    ("Autumn", mkSeasonThresholds 0.3 0.5 0.7 0.8);
    ("Winter", mkSeasonThresholds 0.2 0.4 0.6 0.7) ].

Definition classify_with (t : SeasonThresholds) (ndvi : float)
  : Classification :=
  let '(level, color, description) :=
    if (peak t <=? ndvi)%float then
      ("Peak Bloom", "#10B981",
       "Exceptional flowering activity with maximum vegetation health")
    else if (active t <=? ndvi)%float then
      ("Active Bloom", "#34D399",
       "Strong flowering activity with healthy vegetation growth")
    else if (low t <=? ndvi)%float then
      ("Low Bloom", "#FBBF24",
       "Moderate flowering activity with developing vegetation")
    else
      ("Dormant", "#6B7280",
       "Minimal flowering activity, vegetation in dormant phase") in
  mkClassification level color description
    (toFixed2 (low t) +:+ "-" +:+ toFixed2 (peak t))
    (Math_round (ndvi / peak t * 100)%float).

(** [const t = thresholds[season] || thresholds['Spring']].  The latitude is
    accepted and never read.  With an inherited member as [t] the fields
    are [undefined], and [t.low.toFixed] throws a TypeError. *)
Definition classifyBloomIntensity (ndvi : float) (season : string)
    (latitude : float) : Completion Classification :=
  match get_property thresholds season with
  | Own t => Return (classify_with t ndvi)
  | Inherited => Throw "TypeError"
  | Absent => Return (classify_with Spring_thresholds ndvi)
  end.

End WorldMapSection.

(** ** The NDVI data service (nasaApi) *)

Module NasaApi.
Import JS.

(** What the service reads from [new Date()]: the month, 1 to 12
    ([getMonth() + 1]), and the ISO string of the instant. *)
Record Clock : Type := mkClock { month : Z; toISOString : string }.

Record Season : Type := mkSeason
  { name : option string; phase : option string }.

Record NDVIData : Type := mkNDVIData
  { latitude : float;
    longitude : float;
    ndvi : float;
    ndviAnomaly : float;
    date : string;
    confidence : float;
    source : string;
    season : option string;
    seasonPhase : option string }.

Definition phase_of (month early mid : Z) : string :=
  if (month =? early)%Z then "Early"
  else if (month =? mid)%Z then "Mid" else "Late".

(** The two [switch] statements on the month; a month outside 1..12 matches
    no case and leaves [season] and [phase] undefined. *)
Definition getSeasonForLocation (now : Clock) (lat lon : float) : Season :=
  let month := month now in
  let isNorthernHemisphere := (0 <? lat)%float in
  if isNorthernHemisphere then
    match month with
    | 12 | 1 | 2 => mkSeason (Some "Winter") (Some (phase_of month 12 1))
    | 3 | 4 | 5 => mkSeason (Some "Spring") (Some (phase_of month 3 4))
    | 6 | 7 | 8 => mkSeason (Some "Summer") (Some (phase_of month 6 7))
    | 9 | 10 | 11 => mkSeason (Some "Autumn") (Some (phase_of month 9 10))
    | _ => mkSeason None None
    end
  else
    match month with
    | 12 | 1 | 2 => mkSeason (Some "Summer") (Some (phase_of month 12 1))
    | 3 | 4 | 5 => mkSeason (Some "Autumn") (Some (phase_of month 3 4))
    | 6 | 7 | 8 => mkSeason (Some "Winter") (Some (phase_of month 6 7))
    | 9 | 10 | 11 => mkSeason (Some "Spring") (Some (phase_of month 9 10))
    | _ => mkSeason None None
    end.

(** [baseValues[season.name]], clamped; a name that is no key of the table
    reads as [undefined] and the clamp gives [NaN]. *)
Definition getSeasonalNDVI (season : Season) (lat : float) : float :=
  let north := (0 <? lat)%float in
  let baseValues :=
    [ ("Winter", (0.2 + (if north then 0.1 else 0.3))%float);
      ("Spring", (0.4 + (if north then 0.2 else 0.1))%float);
      ("Summer", (0.7 + (if north then 0.1 else -0.1))%float);
      ("Autumn", (0.5 + (if north then 0.1 else 0.2))%float) ] in
  let base :=
    match get_property baseValues (default "undefined" (name season)) with
    | Own v => v
    | _ => nan
    end in
  Math_max 0.1 (Math_min 0.9 base).

Definition generateFallbackNDVI (now : Clock) (lat lon : float) : NDVIData :=
  let season := getSeasonForLocation now lat lon in
  let baseNDVI := getSeasonalNDVI season lat in
  mkNDVIData lat lon baseNDVI 0 (toISOString now) 0.6 "Fallback"
    (name season) (phase season).

(** The mock provider; [r1] and [r2] are its two draws of [Math.random()],
    each in [0, 1). *)
Definition mockNDVIFetch (now : Clock) (r1 r2 : float) (lat lon : float)
  : NDVIData :=
  let season := getSeasonForLocation now lat lon in
  let baseNDVI := getSeasonalNDVI season lat in
  let anomaly := ((r1 - 0.5) * 0.2)%float in
  mkNDVIData lat lon (Math_max 0 (Math_min 1 (baseNDVI + anomaly)%float))
    anomaly (toISOString now) (0.85 + r2 * 0.1)%float "MODIS"
    (name season) (phase season).

(** [fetchNDVIData]: the [try] block awaits the provider, whose outcome is
    [fetched]; the [catch] block logs the error and returns the fallback
    observation.  (The MODIS coordinates computed first are not used.)  The
    result is what the returned promise settles to. *)
Definition fetchNDVIData (now : Clock) (fetched : Completion NDVIData)
    (latitude longitude : float) : Completion NDVIData :=
  match fetched with
  | Return mockNDVIResponse => Return mockNDVIResponse
  | Throw error => Return (generateFallbackNDVI now latitude longitude)
  end.

End NasaApi.

(** ** The data cache (dataCache) *)

Module DataCache.
Import JS.

Definition day : Z := 24 * 60 * 60 * 1000.

Definition CACHE_DURATION : list (string * Z) :=
  [ ("NDVI", 7 * day);
    ("PHENOLOGY", 14 * day);
    ("IMAGES", 30 * day);
    ("LOCATIONS", 90 * day) ].

(** [CACHE_DURATION[dataType] || CACHE_DURATION.NDVI]: [None] stands for an
    inherited member, a function, against which every numeric comparison
    is false. *)
Definition duration_of (dataType : string) : option Z :=
  match get_property CACHE_DURATION dataType with
  | Own d => Some d
  | Inherited => None
  | Absent => Some (7 * day)
  end.

Section Cache.

(** The cached values are JavaScript values of any shape. *)
Context {Value : Type}.

Record CacheEntry : Type := mkCacheEntry
  { data : Value;
    timestamp : Z;
    dataType : string;
    hits : Z;
    lastAccessed : Z }.

(** The cache object: its [Map] and the copy last written to
    localStorage; and, of the browser, whether each write to localStorage
    goes through: [setItem n] is false when the write number [n] throws
    (the quota is full, or [JSON.stringify] meets a value it cannot
    serialise), and [saves] counts the writes made so far. *)
Record Store : Type := mkStore
  { cache : gmap string CacheEntry;
    storage : gmap string CacheEntry;
    setItem : nat -> bool;
    saves : nat }.

(** The store with another [Map]. *)
Definition with_cache (c : Store) (m : gmap string CacheEntry) : Store :=
  mkStore m (storage c) (setItem c) (saves c).

(** [saveToStorage]: an error of the write is caught and logged, and the
    stored copy stays as it was. *)
Definition saveToStorage (c : Store) : Store :=
  mkStore (cache c)
    (if setItem c (saves c) then cache c else storage c)
    (setItem c) (S (saves c)).

(** [isCacheValid]; [now] is its reading of [Date.now()]. *)
Definition isCacheValid (c : Store) (now : Z) (key dtype : string) : bool :=
  match cache c !! key with
  | None => false
  | Some cached =>
      match duration_of dtype with
      | Some duration => (now - timestamp cached <? duration)%Z
      | None => false
      end
  end.

(** [get]; [now] is the reading of [Date.now()] made by the validity
    check and [accessed] the later one stored in [lastAccessed].  [None] is
    JavaScript's [null]. *)
Definition get (c : Store) (now accessed : Z) (key dtype : string)
  : option Value * Store :=
  if isCacheValid c now key dtype then
    match cache c !! key with
    | Some cached =>
        let cached' :=
          mkCacheEntry (data cached) (timestamp cached) (dataType cached)
            (hits cached + 1) accessed in
        (Some (data cached),
         saveToStorage (with_cache c (<[key := cached']> (cache c))))
    | None => (None, c)
    end
  else
    (None, saveToStorage (with_cache c (delete key (cache c)))).

(** [set]; [now] and [accessed] are its two readings of [Date.now()]. *)
Definition set (c : Store) (now accessed : Z) (key : string) (v : Value)
    (dtype : string) : Store :=
  saveToStorage
    (with_cache c (<[key := mkCacheEntry v now dtype 0 accessed]> (cache c))).

(** The test of [cleanup] on one entry: older than the duration of the
    type the entry was stored with. *)
Definition stale (now : Z) (e : CacheEntry) : bool :=
  match duration_of (dataType e) with
  | Some duration => (duration <? now - timestamp e)%Z
  | None => false
  end.

Definition cleanup (c : Store) (now : Z) : Store :=
  let kept := filter (fun kv => stale now (snd kv) = false) (cache c) in
  let cleaned := (size (cache c) - size kept)%nat in
  if (0 <? cleaned)%nat then saveToStorage (with_cache c kept)
  else with_cache c kept.

End Cache.

Arguments CacheEntry Value : clear implicits.
Arguments Store Value : clear implicits.

Section Keys.

(** The decimal text JavaScript gives a number in a template literal,
    taken as given. *)
Variable Number_toString : float -> string.

Definition generateKey (latitude longitude : float) (dataType : string)
  : string :=
  let roundedLat := (Math_round (latitude * 1000) / 1000)%float in
  let roundedLon := (Math_round (longitude * 1000) / 1000)%float in
  dataType +:+ "_" +:+ Number_toString roundedLat +:+ "_" +:+
  Number_toString roundedLon.

Context {Value : Type}.

Definition getCachedLocationData (c : Store Value) (now accessed : Z)
    (latitude longitude : float) : option Value * Store Value :=
  get c now accessed (generateKey latitude longitude "LOCATIONS") "LOCATIONS".

Definition cacheLocationData (c : Store Value) (now accessed : Z)
    (latitude longitude : float) (bloomStatus : Value) : Store Value :=
  set c now accessed (generateKey latitude longitude "LOCATIONS") bloomStatus
    "LOCATIONS".

Definition getCachedNDVIData (c : Store Value) (now accessed : Z)
    (latitude longitude : float) : option Value * Store Value :=
  get c now accessed (generateKey latitude longitude "NDVI") "NDVI".

Definition getCachedPhenologyData (c : Store Value) (now accessed : Z)
    (latitude longitude : float) : option Value * Store Value :=
  get c now accessed (generateKey latitude longitude "PHENOLOGY") "PHENOLOGY".

Definition getCachedImageData (c : Store Value) (now accessed : Z)
    (latitude longitude : float) (season : string)
  : option Value * Store Value :=
  get c now accessed
    (generateKey latitude longitude "IMAGES" +:+ "_" +:+ season) "IMAGES".

End Keys.

End DataCache.

(** ** The bloom data service (bloomDataService)

    A promise is modelled by the outcome it settles with, and what a call
    reads from outside (the clock, the outcome of its fetch, the cache
    traffic of the fetch) is given to it as a record of readings.
    [getBloomData] is a call awaited on its own; [getBatchBloomData] starts
    its calls together and lets their requests settle afterwards. *)

Module BloomDataService.
Import JS DataCache.

Record Location : Type := mkLocation { latitude : float; longitude : float }.

(** The entries a fetch keeps in the cache besides the composed answer:
    those of [cacheNDVIData], [cachePhenologyData] and [cacheImageData]. *)
Inductive Entry : Type :=
| NDVIEntry
| PhenologyEntry
| ImageEntry (season : string).

Definition entry_type (e : Entry) : string :=
  match e with
  | NDVIEntry => "NDVI"
  | PhenologyEntry => "PHENOLOGY"
  | ImageEntry _ => "IMAGES"
  end.

Section Service.

Variable Number_toString : float -> string.
Context {Value : Type}.

(** Whether a value counts as true in a condition. *)
Variable truthy : Value -> bool.

Definition entry_key (latitude longitude : float) (e : Entry) : string :=
  match e with
  | ImageEntry season =>
      generateKey Number_toString latitude longitude "IMAGES" +:+ "_" +:+
      season
  | _ => generateKey Number_toString latitude longitude (entry_type e)
  end.

(** One access of [this.fetchBloomData] to the cache, through
    [this.getNDVIData], [this.getPlantInformation],
    [this.getPhenologyMetrics] or [this.getFlowerImages]: a lookup
    ([getCached...]) or a write ([cache...]) of an entry, with the clock
    readings it makes.  All of them are made under the coordinates of the
    fetch. *)
Inductive Access : Type :=
| CacheGet (e : Entry) (now accessed : Z)
| CacheSet (e : Entry) (v : Value) (now accessed : Z).

Definition perform (latitude longitude : float) (a : Access)
    (c : Store Value) : Store Value :=
  match a with
  | CacheGet e now accessed =>
      snd (get c now accessed (entry_key latitude longitude e) (entry_type e))
  | CacheSet e v now accessed =>
      set c now accessed (entry_key latitude longitude e) v (entry_type e)
  end.

(** What one call of [getBloomData] reads: the clock at the first-time
    cleanup and at the cache lookup; of [this.fetchBloomData], the clock at
    the NDVI lookup it opens with, the cache traffic that follows, in
    order, and its outcome; and the clock at the cache write. *)
Record Readings : Type := mkReadings
  { cleanup_now : Z;
    get_now : Z;
    get_accessed : Z;
    ndvi_now : Z;
    ndvi_accessed : Z;
    fetch_traffic : list Access;
    fetched : Completion Value;
    set_now : Z;
    set_accessed : Z }.

(** The service object with the two module-level singletons it drives:
    the cache and the queue of the background refresh. *)
Record Service : Type := mkService
  { isInitialized : bool;
    requestQueue : gmap string (Completion Value);
    dataCache : Store Value;
    refreshQueue : gset string }.

Definition with_dataCache (s : Service) (c : Store Value) : Service :=
  mkService (isInitialized s) (requestQueue s) c (refreshQueue s).

(** [initialize]: the first call starts the cache system, whose immediate
    effect is one [cleanup] (the timers it also installs run later and are
    not modelled); its errors are caught and logged. *)
Definition initialize (s : Service) (now : Z) : Service :=
  if isInitialized s then s
  else mkService true (requestQueue s) (cleanup (dataCache s) now)
         (refreshQueue s).

(** How far a call gets before it first waits for a request: it has its
    answer (from the cache, or it returns the request in flight), or it has
    started its own fetch and waits at [await requestPromise]. *)
Inductive Call : Type :=
| Answered (p : Completion Value)
| Awaiting (requestKey : string) (requestPromise : Completion Value).

(** [getBloomData] up to [await requestPromise].  The fetch it starts runs
    as far as the NDVI lookup of [this.getNDVIData] before it first
    waits. *)
Definition start (s : Service) (r : Readings)
    (latitude longitude : float) (forceRefresh : bool) : Call * Service :=
  let s := initialize s (cleanup_now r) in
  let '(cachedData, c) :=
    if forceRefresh then (None, dataCache s)
    else getCachedLocationData Number_toString (dataCache s) (get_now r)
           (get_accessed r) latitude longitude in
  let s := mkService (isInitialized s) (requestQueue s) c (refreshQueue s) in
  let answered :=
    match cachedData with
    | Some d => if truthy d then Some d else None
    | None => None
    end in
  match answered with
  | Some d => (Answered (Return d), s)
  | None =>
      let requestKey :=
        Number_toString latitude +:+ "_" +:+ Number_toString longitude in
      match requestQueue s !! requestKey with
      | Some requestPromise => (Answered requestPromise, s)
      | None =>
          let requestPromise := fetched r in
          (Awaiting requestKey requestPromise,
           mkService (isInitialized s)
             (<[requestKey := requestPromise]> (requestQueue s))
             (snd (getCachedNDVIData Number_toString (dataCache s) (ndvi_now r)
                     (ndvi_accessed r) latitude longitude))
             (refreshQueue s))
      end
  end.

(** The rest of the cache traffic of the fetch. *)
Definition fetch (s : Service) (latitude longitude : float)
    (traffic : list Access) : Service :=
  with_dataCache s
    (fold_left (fun c a => perform latitude longitude a c) traffic
       (dataCache s)).

(** [getBloomData] from [await requestPromise] on, once the request has
    settled: the answer is cached and a refresh scheduled when it was
    fulfilled, and the queue entry removed in both cases ([finally]). *)
Definition resume (s : Service) (r : Readings) (latitude longitude : float)
    (requestKey : string) (requestPromise : Completion Value) : Service :=
  match requestPromise with
  | Return result =>
      mkService (isInitialized s) (delete requestKey (requestQueue s))
        (cacheLocationData Number_toString (dataCache s) (set_now r)
           (set_accessed r) latitude longitude result)
        ({[ requestKey ]} ∪ refreshQueue s)
  | Throw error =>
      mkService (isInitialized s) (delete requestKey (requestQueue s))
        (dataCache s) (refreshQueue s)
  end.

(** [getBloomData], awaited on its own: nothing else runs between the
    start of its fetch and its end. *)
Definition getBloomData (s : Service) (r : Readings)
    (latitude longitude : float) (forceRefresh : bool)
  : Completion Value * Service :=
  let '(call, s) := start s r latitude longitude forceRefresh in
  match call with
  | Answered p => (p, s)
  | Awaiting requestKey requestPromise =>
      (requestPromise,
       resume (fetch s latitude longitude (fetch_traffic r)) r latitude
         longitude requestKey requestPromise)
  end.

(** One slot of a batch answer; [None] is [null], and [location] is
    [locations[index]]. *)
Record Slot : Type := mkSlot
  { location : option Location;
    data : option Value;
    error : option string }.

(** A request of the batch that has not settled: its point, the readings
    of the call that started it, and what is left of its cache traffic. *)
Record Request : Type := mkRequest
  { point : Location;
    readings : Readings;
    traffic : list Access }.

(** The readings of the call made for the point at each index. *)
Variable env : nat -> Readings.

(** The order in which the requests of a batch move on is not fixed by the
    program (timers, the network): [schedule] names, event by event, which
    of the pending requests makes its next step. *)
Variable schedule : list nat.

(** [locations.map(({ latitude, longitude }) => this.getBloomData(...))]:
    the calls are started one after the other, and each runs up to its
    first wait before the next starts; no request settles in between.  So
    a call finds in the request queue the requests of the calls before
    it.  The answer lists the promises of the calls, the requests they
    started, and the service as the last call leaves it. *)
Fixpoint requests (s : Service) (index : nat) (locations : list Location)
    (forceRefresh : bool)
  : list (Completion Value) * list Request * Service :=
  match locations with
  | [] => ([], [], s)
  | l :: rest =>
      let '(call, s1) :=
        start s (env index) (latitude l) (longitude l) forceRefresh in
      let '(ps, qs, s2) := requests s1 (S index) rest forceRefresh in
      match call with
      | Answered p => (p :: ps, qs, s2)
      | Awaiting _ p =>
          (p :: ps, mkRequest l (env index) (fetch_traffic (env index)) :: qs,
           s2)
      end
  end.

(** A pending request settles: the call that started it resumes. *)
Definition finish (q : Request) (s : Service) : Service :=
  let latitude := latitude (point q) in
  let longitude := longitude (point q) in
  resume s (readings q) latitude longitude
    (Number_toString latitude +:+ "_" +:+ Number_toString longitude)
    (fetched (readings q)).

(** The next step of a pending request: its next access to the cache, or,
    when none is left, it settles. *)
Definition advance (q : Request) (s : Service) : option Request * Service :=
  match traffic q with
  | a :: rest =>
      (Some (mkRequest (point q) (readings q) rest),
       fetch s (latitude (point q)) (longitude (point q)) [a])
  | [] => (None, finish q s)
  end.

(** The requests the schedule has left pending run to their end, in the
    order of the points. *)
Definition drain (pending : list Request) (s : Service) : Service :=
  fold_left
    (fun s q =>
       finish q
         (fetch s (latitude (point q)) (longitude (point q)) (traffic q)))
    pending s.

Fixpoint settle (schedule : list nat) (pending : list Request) (s : Service)
  : Service :=
  match schedule with
  | [] => drain pending s
  | n :: schedule' =>
      let i := (n mod length pending)%nat in
      match pending !! i with
      | None => s
      | Some q =>
          let '(q', s') := advance q s in
          settle schedule'
            (match q' with
             | Some q' => <[i := q']> pending
             | None => delete i pending
             end) s'
      end
  end.

(** [getBatchBloomData]: the calls are started, [Promise.allSettled] waits
    until every request has settled, and the outcomes are turned into
    slots. *)
Definition getBatchBloomData (s : Service) (now : Z)
    (locations : list Location) (forceRefresh : bool)
  : Completion (list Slot) * Service :=
  let s := initialize s now in
  let '(promises, pending, s) := requests s 0 locations forceRefresh in
  let s := settle schedule pending s in
  let results := Promise_allSettled promises in
  (Return
     (imap (fun index result =>
              mkSlot (locations !! index)
                (match result with fulfilled value => Some value
                                 | rejected _ => None end)
                (match result with fulfilled _ => None
                                 | rejected reason => Some reason end))
        results),
   s).

End Service.

End BloomDataService.

(** ** Comparison with the historical series (bloomClassification) *)

Module HistoricalComparison.
Import JS.

(** An element of the series built by [fetchNDVITrends]. *)
Record TrendPoint : Type := mkTrendPoint
  { date : string; ndvi : float; season : option string }.

(** The answer; [None] is [null] for [percentile] and an absent field for
    the two averages. *)
Record Comparison : Type := mkComparison
  { trend : string;
    comparison : string;
    percentile : option float;
    historicalAverage : option float;
    currentVsAverage : option float }.

(** [slice(-3)]: the last three elements, or all of them. *)
Definition slice_last3 {A : Type} (l : list A) : list A :=
  skipn (length l - 3) l.

Definition calculateTrend (data : list float) : string :=
  if (length data <? 2)%nat then "Unknown"
  else
    let first := nth 0 data nan in
    let last := nth (length data - 1) data nan in
    let change := ((last - first) / first)%float in
    if (0.1 <? change)%float then "Increasing"
    else if (change <? -0.1)%float then "Decreasing"
    else "Stable".

(** The stable insertion sort by the comparator [(a, b) => a - b]: an
    element goes before the first one that does not compare below it (a
    difference that is [NaN] counts as zero). *)
Fixpoint insert_sorted (x : float) (l : list float) : list float :=
  match l with
  | [] => [x]
  | y :: rest =>
      if (y - x <? 0)%float then y :: insert_sorted x rest
      else x :: y :: rest
  end.

(** A rearrangement of a list, steered by [places]: each element, from
    the last to the first, is put into what is arranged already, at the
    place its number selects.  Every rearrangement arises from some
    [places]. *)
Fixpoint rearrange {A : Type} (places : list nat) (l : list A) : list A :=
  match l with
  | [] => []
  | x :: rest =>
      let arranged := rearrange (tl places) rest in
      let n := (hd 0%nat places mod S (length arranged))%nat in
      (take n arranged ++ x :: drop n arranged)%list
  end.

Section Sorting.

(** The order in which the engine leaves a series that holds a [NaN]:
    the comparator is then not consistent ([NaN] compares as equal to
    every value), and ECMAScript leaves the order to the implementation. *)
Variable engine_places : list float -> list nat.

(** [sort((a, b) => a - b)]: on a series without [NaN] the comparator is
    consistent and the sort, which ECMAScript requires to be stable, gives
    what the stable insertion sort gives; on any other series the result
    is the engine's rearrangement. *)
Definition sort (l : list float) : list float :=
  if forallb (fun v => negb (is_nan v)) l then fold_right insert_sorted [] l
  else rearrange (engine_places l) l.

End Sorting.

(** [v] may follow [u] in the order of the comparator: [v - u] is not
    negative. *)
Definition in_order (u v : float) : Prop := (v - u <? 0)%float = false.

(** [findIndex]: the index of the first element that satisfies the test,
    or -1. *)
Fixpoint findIndex {A : Type} (test : A -> bool) (l : list A) : Z :=
  match l with
  | [] => -1
  | x :: rest =>
      if test x then 0
      else let i := findIndex test rest in
           if (i <? 0)%Z then -1 else i + 1
  end.

Definition calculatePercentile (value : float) (sortedArray : list float)
  : float :=
  let index := findIndex (fun v => (value <=? v)%float) sortedArray in
  Math_round (of_Z index / of_Z (Z.of_nat (length sortedArray)) * 100)%float.

Definition trendMessages : list (string * string) :=
  [ ("Increasing", "blooming activity is increasing");
    ("Decreasing", "blooming activity is decreasing");
    ("Stable", "blooming activity is stable");
    ("Unknown", "trend is unclear") ].

Definition generateComparisonMessage (trend : string)
    (percentile : option float) : string :=
  match percentile with
  | None => "No comparison available"
  | Some percentile =>
      let percentileMessage :=
        if (75 <=? percentile)%float then "above average"
        else if (percentile <=? 25)%float then "below average"
        else "near average" in
      let trendMessage :=
        match get_property trendMessages trend with
        | Own m => m
        | _ => "undefined"
        end in
      "Current blooming is " +:+ percentileMessage +:+ " and " +:+ trendMessage
  end.

Definition sum (l : list float) : float :=
  fold_left (fun a b => (a + b)%float) l 0%float.

(** [compareWithHistorical].  The source text lacks the brace that closes
    the first [if]; the function is read with the [if] closed after its
    [return], as the indentation has it.  [sort] works in place, so the
    two averages are taken over the sorted series. *)
Definition compareWithHistorical (engine_places : list float -> list nat)
    (currentBloom : NasaApi.NDVIData) (historicalData : list TrendPoint)
  : Comparison :=
  match historicalData with
  | [] =>
      mkComparison "Unknown" "No historical data available" None None None
  | _ :: _ =>
      let currentNDVI := NasaApi.ndvi currentBloom in
      let historicalNDVIs := map ndvi historicalData in
      let recent := slice_last3 historicalNDVIs in
      let trend := calculateTrend recent in
      let sortedNDVIs := sort engine_places historicalNDVIs in
      let percentile := calculatePercentile currentNDVI sortedNDVIs in
      let comparison := generateComparisonMessage trend (Some percentile) in
      let average :=
        (sum sortedNDVIs / of_Z (Z.of_nat (length sortedNDVIs)))%float in
      mkComparison trend comparison (Some percentile) (Some average)
        (Some (currentNDVI - average)%float)
  end.

End HistoricalComparison.

(** ** The forecast engine

    The forecasting code is served by the Python backend behind
    [/bloom-forecast]; the front end only calls it. *)

Module ForecastEngine.
Import JS.

(** Modelled from the spec: one element of the historical series, a
    (month, index_value) pair. *)
Definition Observation : Type := (Z * float)%type.

(** Modelled from the spec: the ForecastPoint value of the data model. *)
Record ForecastPoint : Type := mkForecastPoint
  { target_month : Z;
    predicted_index : float;
    lower_bound : float;
    upper_bound : float }.

(** Modelled from the spec: the answer of the forecast operation, the
    ordered points and the low-confidence tag. *)
Record Forecast : Type := mkForecast
  { points : list ForecastPoint; low_confidence : bool }.

Definition same_observation (a b : Observation) : bool :=
  (fst a =? fst b)%Z && (snd a =? snd b)%float.

(** Modelled from the spec: the number of distinct data points of a
    series. *)
Fixpoint distinct_points (history : list Observation) : nat :=
  match history with
  | [] => 0
  | o :: rest =>
      if existsb (same_observation o) rest then distinct_points rest
      else S (distinct_points rest)
  end.

(** Modelled from the spec: the flat forecast, the value [v] repeated for
    the month offsets [offset + 1 .. offset + n], with a band of no
    width. *)
Fixpoint flat (v : float) (offset : Z) (n : nat) : list ForecastPoint :=
  match n with
  | O => []
  | S n' => mkForecastPoint (offset + 1) v v v :: flat v (offset + 1) n'
  end.

Section Engine.

(** Modelled from the spec: the fitted model of the normal case (trend
    plus a 12-month seasonal component, with a band that widens with the
    horizon), which the specification leaves to the implementer. *)
Variable fit : list Observation -> nat -> list ForecastPoint.

(** Modelled from the spec: the forecast operation of the backend, whose
    code is not part of the front-end sources.  An empty history gives an
    empty forecast; a history with fewer than 2 distinct data points gives
    the flat forecast that repeats the last known value, tagged as
    low-confidence; any other history is fitted.  No case is an error. *)
Definition forecast (history : list Observation) (months : nat)
  : Completion Forecast :=
  match history with
  | [] => Return (mkForecast [] true)
  | first :: _ =>
      if (distinct_points history <? 2)%nat then
        Return (mkForecast (flat (snd (List.last history first)) 0 months) true)
      else Return (mkForecast (fit history months) false)
  end.

End Engine.

End ForecastEngine.

(** ** The phenology service (phenologyApi) *)

Module PhenologyApi.
Import JS.

Record Plant : Type := mkPlant
  { name : string; scientific : string; bloomPeriod : string;
    ndviBoost : float }.

Definition REGIONAL_PLANTS : list (string * list (string * list Plant)) :=
  [ ("north_temperate",
     [ ("spring",
        [ mkPlant "Cherry Blossom" "Prunus serrulata" "March-May" 0.15;
          mkPlant "Magnolia" "Magnolia spp." "March-June" 0.12;
          mkPlant "Tulip" "Tulipa spp." "April-May" 0.08;
          mkPlant "Daffodil" "Narcissus spp." "March-April" 0.06 ]);
       ("summer",
        [ mkPlant "Rose" "Rosa spp." "June-September" 0.10;
          mkPlant "Sunflower" "Helianthus annuus" "July-September" 0.14;
          mkPlant "Lavender" "Lavandula spp." "June-August" 0.09;
          mkPlant "Wildflower Meadow" "Mixed species" "May-September" 0.18 ]);
       ("autumn",
        [ mkPlant "Chrysanthemum" "Chrysanthemum spp." "September-November"
            0.08;
          mkPlant "Aster" "Aster spp." "August-October" 0.07;
          mkPlant "Goldenrod" "Solidago spp." "August-October" 0.09;
          mkPlant "Cosmos" "Cosmos spp." "July-October" 0.06 ]);
       ("winter",
        [ mkPlant "Camellia" "Camellia spp." "December-March" 0.05;
          mkPlant "Witch Hazel" "Hamamelis spp." "January-March" 0.04;
          mkPlant "Snowdrop" "Galanthus spp." "January-March" 0.03;
          mkPlant "Winter Jasmine" "Jasminum nudiflorum" "December-February"
            0.04 ]) ]);
    ("south_temperate",
     [ ("spring",
        [ mkPlant "Banksia" "Banksia spp." "September-November" 0.12;
          mkPlant "Waratah" "Telopea spp." "October-December" 0.10;
          mkPlant "Wattle" "Acacia spp." "August-November" 0.14;
          mkPlant "Protea" "Protea spp." "October-February" 0.11 ]);
       ("summer",
        [ mkPlant "Jacaranda" "Jacaranda mimosifolia" "November-February" 0.16;
          mkPlant "Eucalyptus Flower" "Eucalyptus spp." "October-March" 0.13;
          mkPlant "Kangaroo Paw" "Anigozanthos spp." "November-February" 0.09;
          mkPlant "Sturt Desert Rose" "Gossypium sturtianum" "December-March"
            0.08 ]);
       ("autumn",
        [ mkPlant "Autumn Crocus" "Colchicum autumnale" "March-May" 0.06;
          mkPlant "Saffron Crocus" "Crocus sativus" "March-April" 0.05;
          mkPlant "Autumn Bellflower" "Campanula spp." "March-May" 0.07 ]);
       ("winter",
        [ mkPlant "Winter Rose" "Helleborus spp." "June-August" 0.04;
          mkPlant "Cyclamen" "Cyclamen spp." "May-September" 0.05;
          mkPlant "Winter Heath" "Erica spp." "June-August" 0.06 ]) ]);
    ("tropical",
     [ ("year_round",
        [ mkPlant "Hibiscus" "Hibiscus rosa-sinensis" "Year-round" 0.08;
          mkPlant "Bougainvillea" "Bougainvillea spp." "Year-round" 0.10;
          mkPlant "Orchid" "Orchidaceae spp." "Year-round" 0.06;
          mkPlant "Bird of Paradise" "Strelitzia reginae" "Year-round" 0.07;
          mkPlant "Frangipani" "Plumeria spp." "Year-round" 0.09 ]) ]) ].

Definition getPlantRegion (latitude longitude : float) : string :=
  let absLat := Math_abs latitude in
  if (absLat <? 23.5)%float then "tropical"
  else if (0 <? latitude)%float then "north_temperate"
  else "south_temperate".

(** [toLowerCase] on the letters A to Z.  (No other character lowers to a
    letter of the keys looked up below.) *)
Definition lower (c : ascii) : ascii :=
  let n := nat_of_ascii c in
  if ((65 <=? n) && (n <=? 90))%nat then ascii_of_nat (n + 32) else c.

Fixpoint toLowerCase (s : string) : string :=
  match s with
  | EmptyString => EmptyString
  | String c rest => String (lower c) (toLowerCase rest)
  end.

(** What [plants[key] || []] can be: an array of the table, or a member
    inherited from [Object.prototype], named by its key. *)
Inductive Plants : Type :=
  | PlantList (plants : list Plant)
  | Member (key : string).

(** [season] is [None] when the caller passes no string ([undefined]);
    [season.toLowerCase()] then throws, unless the tropical branch has
    returned before. *)
Definition getCurrentFloweringPlants (latitude longitude : float)
    (season : option string) : Completion Plants :=
  let region := getPlantRegion latitude longitude in
  let plants := default [] (own_property REGIONAL_PLANTS region) in
  if String.eqb region "tropical" then
    Return (PlantList (default [] (own_property plants "year_round")))
  else
    match season with
    | None => Throw "TypeError"
    | Some season =>
        match get_property plants (toLowerCase season) with
        | Own l => Return (PlantList l)
        | Inherited => Return (Member (toLowerCase season))
        | Absent => Return (PlantList [])
        end
    end.

Record PlantInfo : Type := mkPlantInfo
  { primarySpecies : string;
    scientificName : option string;
    description : string;
    bloomIntensity : string;
    dominantColors : list string;
    floweringPeriod : string;
    ndviContribution : option float;
    additionalSpecies : option (list string) }.

Definition seasonAdjectives : list (string * string) :=
  [ ("Spring", "awakening"); ("Summer", "vibrant"); ("Autumn", "rich");
    ("Winter", "subtle") ].

Definition calculateBloomIntensity (plants : list Plant) : string :=
  let avgNDVIBoost :=
    (fold_left (fun sum plant => (sum + ndviBoost plant)%float) plants 0%float
     / of_Z (Z.of_nat (length plants)))%float in
  if (0.12 <? avgNDVIBoost)%float then "Peak Bloom"
  else if (0.08 <? avgNDVIBoost)%float then "Active Bloom"
  else if (0.05 <? avgNDVIBoost)%float then "Low Bloom"
  else "Dormant".

Definition colorMap : list (string * list string) :=
  [ ("Cherry Blossom", ["pink"; "white"]);
    ("Magnolia", ["pink"; "white"; "purple"]);
    ("Tulip", ["red"; "yellow"; "purple"; "orange"]);
    ("Rose", ["red"; "pink"; "white"; "yellow"]);
    ("Sunflower", ["yellow"; "orange"]);
    ("Lavender", ["purple"; "blue"]);
    ("Banksia", ["yellow"; "orange"; "red"]);
    ("Jacaranda", ["purple"; "blue"]);
    ("Hibiscus", ["red"; "pink"; "yellow"; "orange"]);
    ("Bougainvillea", ["pink"; "purple"; "red"; "orange"]) ].

(** [colors.add(color)] on a [Set] kept in insertion order. *)
Definition Set_add (colors : list string) (color : string) : list string :=
  if existsb (String.eqb color) colors then colors
  else (colors ++ [color])%list.

(** [getPlantColors]; an inherited member found under a plant's name has no
    [forEach], and the call throws. *)
Fixpoint getPlantColors_from (colors : list string) (plants : list Plant)
  : Completion (list string) :=
  match plants with
  | [] => Return colors
  | plant :: rest =>
      match get_property colorMap (name plant) with
      | Own plantColors =>
          getPlantColors_from (fold_left Set_add plantColors colors) rest
      | Absent => getPlantColors_from (fold_left Set_add ["green"] colors) rest
      | Inherited => Throw "TypeError"
      end
  end.

Definition getPlantColors (plants : list Plant) : Completion (list string) :=
  getPlantColors_from [] plants.

Section Texts.

(** The text a template literal gives for an inherited member (the source
    text of a built-in function), taken as given. *)
Variable member_text : string -> string.

Definition generatePlantDescription (primary : Plant) (secondary : list Plant)
    (season : option string) : string :=
  let key := default "undefined" season in
  let adjective :=
    match get_property seasonAdjectives key with
    | Own a => a
    | Inherited => member_text key
    | Absent => "beautiful"
    end in
  match secondary with
  | _ :: _ =>
      name primary +:+ " in " +:+ adjective +:+ " bloom, accompanied by " +:+
      String.concat " and " (map name secondary)
  | [] => name primary +:+ " displaying " +:+ adjective +:+ " seasonal flowering"
  end.

Definition getPlantInformation (latitude longitude : float)
    (season : option string) : Completion PlantInfo :=
  match getCurrentFloweringPlants latitude longitude season with
  | Throw e => Throw e
  | Return (Member _) => Throw "TypeError"
  | Return (PlantList []) =>
      Return (mkPlantInfo "Mixed Vegetation" None
                "Local vegetation in seasonal transition" "Low" ["green"]
                "Ongoing" None None)
  | Return (PlantList ((primaryPlant :: others) as plants)) =>
      let secondaryPlants := firstn 2 others in
      let description :=
        generatePlantDescription primaryPlant secondaryPlants season in
      match getPlantColors plants with
      | Throw e => Throw e
      | Return colors =>
          Return (mkPlantInfo (name primaryPlant)
                    (Some (scientific primaryPlant)) description
                    (calculateBloomIntensity plants) colors
                    (bloomPeriod primaryPlant) (Some (ndviBoost primaryPlant))
                    (Some (map name secondaryPlants)))
      end
  end.

End Texts.

(** A value that is a string, or an inherited member returned as it is. *)
Inductive Text : Type :=
  | Str (s : string)
  | InheritedMember (key : string).

(** [table[season] || fallback] on a table of month names. *)
Definition month_text (table : list (string * string)) (season : option string)
    (fallback : string) : Text :=
  let key := default "undefined" season in
  match get_property table key with
  | Own m => Str m
  | Inherited => InheritedMember key
  | Absent => Str fallback
  end.

Record PeakBloom : Type := mkPeakBloom { period : Text; intensity : string }.

Record PhenologyMetrics : Type := mkPhenologyMetrics
  { startOfSeason : Text;
    peakBloom : PeakBloom;
    endOfSeason : Text;
    currentPhase : string;
    bloomDuration : string;
    phenologyIndex : float }.

Definition calculateStartOfSeason (season : option string) (latitude : float)
  : Text :=
  let isNorthern := (0 <? latitude)%float in
  month_text
    [ ("Spring", if isNorthern then "March" else "September");
      ("Summer", if isNorthern then "June" else "December");
      ("Autumn", if isNorthern then "September" else "March");
      ("Winter", if isNorthern then "December" else "June") ]
    season "Variable".

Definition calculatePeakBloom (season : option string) (latitude ndvi : float)
  : PeakBloom :=
  let isNorthern := (0 <? latitude)%float in
  mkPeakBloom
    (month_text
       [ ("Spring", if isNorthern then "April-May" else "October-November");
         ("Summer", if isNorthern then "July-August" else "January-February");
         ("Autumn", if isNorthern then "September-October" else "March-April");
         ("Winter", if isNorthern then "January-February" else "July-August") ]
       season "Variable")
    (if (0.7 <? ndvi)%float then "High"
     else if (0.5 <? ndvi)%float then "Medium" else "Low").

Definition calculateEndOfSeason (season : option string) (latitude : float)
  : Text :=
  let isNorthern := (0 <? latitude)%float in
  month_text
    [ ("Spring", if isNorthern then "June" else "December");
      ("Summer", if isNorthern then "September" else "March");
      ("Autumn", if isNorthern then "November" else "May");
      ("Winter", if isNorthern then "March" else "September") ]
    season "Variable".

(** [month] is [now.getMonth() + 1]. *)
Definition getCurrentPhase (month : Z) (season : option string)
    (latitude : float) : string :=
  let isNorthern := (0 <? latitude)%float in
  match season with
  | Some "Spring" =>
      if isNorthern then (if (month <=? 4)%Z then "Early" else "Late")
      else (if (month <=? 10)%Z then "Early" else "Late")
  | Some "Summer" =>
      if isNorthern then (if (month <=? 7)%Z then "Early" else "Late")
      else (if (month <=? 1)%Z then "Early" else "Late")
  | _ => "Mid"
  end.

Definition calculatePhenologyIndex (ndvi : float) (plants : list Plant)
  : float :=
  let plantBoost :=
    match plants with
    | first :: _ => ndviBoost first
    | [] => 0%float
    end in
  Math_min 1 (ndvi + plantBoost)%float.

(** [getPhenologyMetrics].  The inherited member [constructor] is a
    function of one argument: its [length] is positive, [plants[0]] is
    undefined and reading its [bloomPeriod] throws; any other inherited
    member has no [length] and counts as no plants. *)
Definition getPhenologyMetrics (month : Z) (latitude longitude ndvi : float)
    (season : option string) : Completion PhenologyMetrics :=
  match getCurrentFloweringPlants latitude longitude season with
  | Throw e => Throw e
  | Return found =>
      let metrics plants :=
        mkPhenologyMetrics
          (calculateStartOfSeason season latitude)
          (calculatePeakBloom season latitude ndvi)
          (calculateEndOfSeason season latitude)
          (getCurrentPhase month season latitude)
          (match plants with
           | first :: _ => bloomPeriod first
           | [] => "Variable"
           end)
          (calculatePhenologyIndex ndvi plants) in
      match found with
      | PlantList plants => Return (metrics plants)
      | Member key =>
          if String.eqb key "constructor" then Throw "TypeError"
          else Return (metrics [])
      end
  end.

End PhenologyApi.

(** ** Score and data quality of the classification service
       (bloomClassification) *)

Module BloomStatus.
Import JS.

(** A number counts as true unless it is zero or [NaN]. *)
Definition truthy_number (x : float) : bool :=
  negb (PrimFloat.is_zero x || is_nan x).

(** [calculateBloomScore]; [None] is a missing object or a missing
    field. *)
Definition calculateBloomScore (ndvi : float)
    (plantInfo : option PhenologyApi.PlantInfo)
    (phenologyMetrics : option PhenologyApi.PhenologyMetrics) : float :=
  let score := (ndvi * 60)%float in
  let score :=
    match plantInfo with
    | Some info =>
        match PhenologyApi.ndviContribution info with
        | Some c => if truthy_number c then (score + c * 20)%float else score
        | None => score
        end
    | None => score
    end in
  let score :=
    match phenologyMetrics with
    | Some metrics =>
        let i := PhenologyApi.phenologyIndex metrics in
        if truthy_number i then (score + i * 20)%float else score
    | None => score
    end in
  Math_min 100 (Math_max 0 (Math_round score)).

Record DataQuality : Type := mkDataQuality
  { level : string;
    confidence : float;
    issues : list string;
    lastValidData : string }.

Definition assessDataQuality (ndviData : NasaApi.NDVIData) : DataQuality :=
  let quality := "Good" in
  let issues := [] in
  let '(quality, issues) :=
    if (NasaApi.confidence ndviData <? 0.7)%float
    then ("Fair", (issues ++ ["Low confidence in satellite data"])%list)
    else (quality, issues) in
  let '(quality, issues) :=
    if String.eqb (NasaApi.source ndviData) "Fallback"
    then ("Limited",
          (issues ++
             ["Using fallback data - real-time data unavailable"])%list)
    else (quality, issues) in
  let '(quality, issues) :=
    if (0.2 <? Math_abs (NasaApi.ndviAnomaly ndviData))%float
    then ("Fair", (issues ++ ["Unusual NDVI anomaly detected"])%list)
    else (quality, issues) in
  mkDataQuality quality (Math_round (NasaApi.confidence ndviData * 100)%float)
    issues (NasaApi.date ndviData).

End BloomStatus.

(** ** Data quality and the phenology lookups of the bloom data service
       (bloomDataService) *)

Module BloomDataQuality.
Import JS.

Record Quality : Type := mkQuality
  { score : float; factors : list string; level : string }.

(** Whether [plantInfo && plantInfo.primarySpecies &&
    plantInfo.primarySpecies !== 'Mixed Vegetation'] holds. *)
Definition species_identified (plantInfo : option PhenologyApi.PlantInfo)
  : bool :=
  match plantInfo with
  | Some info =>
      negb (String.eqb (PhenologyApi.primarySpecies info) "")
      && negb (String.eqb (PhenologyApi.primarySpecies info) "Mixed Vegetation")
  | None => false
  end.

Definition calculateQualityScore (ndviData : NasaApi.NDVIData)
    (plantInfo : option PhenologyApi.PlantInfo)
    (phenologyMetrics : option PhenologyApi.PhenologyMetrics) : float :=
  let score := 0%float in
  let score := (score + NasaApi.confidence ndviData * 40)%float in
  let score :=
    if String.eqb (NasaApi.source ndviData) "MODIS" then (score + 20)%float
    else if String.eqb (NasaApi.source ndviData) "Fallback"
    then (score + 10)%float
    else score in
  let score :=
    if species_identified plantInfo then (score + 20)%float
    else match plantInfo with
         | Some _ => (score + 10)%float
         | None => score
         end in
  let score :=
    match phenologyMetrics with
    | Some metrics =>
        if (0 <? PhenologyApi.phenologyIndex metrics)%float
        then (score + 20)%float else score
    | None => score
    end in
  Math_min 100 (Math_round score).

Definition assessDataQuality (ndviData : NasaApi.NDVIData)
    (plantInfo : option PhenologyApi.PlantInfo)
    (phenologyMetrics : option PhenologyApi.PhenologyMetrics) : Quality :=
  let qualityFactors :=
    [ if (0.8 <? NasaApi.confidence ndviData)%float
      then "High satellite data confidence"
      else if (0.6 <? NasaApi.confidence ndviData)%float
      then "Moderate satellite data confidence"
      else "Low satellite data confidence" ] in
  let qualityFactors :=
    if String.eqb (NasaApi.source ndviData) "MODIS"
    then (qualityFactors ++ ["NASA MODIS satellite data"])%list
    else if String.eqb (NasaApi.source ndviData) "Fallback"
    then (qualityFactors ++ ["Estimated data (satellite unavailable)"])%list
    else qualityFactors in
  let qualityFactors :=
    (qualityFactors ++
     [ if species_identified plantInfo
       then "Regional plant species identified"
       else "Generic vegetation classification" ])%list in
  let qualityScore :=
    calculateQualityScore ndviData plantInfo phenologyMetrics in
  mkQuality qualityScore qualityFactors
    (if (80 <=? qualityScore)%float then "Excellent"
     else if (60 <=? qualityScore)%float then "Good"
     else if (40 <=? qualityScore)%float then "Fair"
     else "Limited").

End BloomDataQuality.

(** ** The cached phenology lookups of the bloom data service *)

Module PhenologyCache.
Import JS DataCache.

(** A value cached under a phenology key, as far as the two fields the
    service reads of it: [{ plantInfo }], [{ phenologyMetrics }], an
    object with both, or a value with neither. *)
Record Cached : Type := mkCached
  { plantInfo : option PhenologyApi.PlantInfo;
    phenologyMetrics : option PhenologyApi.PhenologyMetrics }.

(** The clock readings of one lookup: by the cache read, and by the cache
    write that follows a miss. *)
Record Readings : Type := mkReadings
  { get_now : Z; get_accessed : Z; set_now : Z; set_accessed : Z }.

Section Lookups.

Variable Number_toString : float -> string.
Variable member_text : string -> string.

Definition cachePhenologyData (c : Store Cached) (now accessed : Z)
    (latitude longitude : float) (phenologyData : Cached) : Store Cached :=
  set c now accessed (generateKey Number_toString latitude longitude "PHENOLOGY")
    phenologyData "PHENOLOGY".

(** [getPlantInformation] of the service: the cached plant information
    when the entry has one, else the computed one, written as
    [{ plantInfo }]. *)
Definition getPlantInformation (c : Store Cached) (r : Readings)
    (latitude longitude : float) (season : option string)
  : Completion PhenologyApi.PlantInfo * Store Cached :=
  let '(cached, c) :=
    getCachedPhenologyData Number_toString c (get_now r) (get_accessed r)
      latitude longitude in
  match cached with
  | Some (mkCached (Some info) _) => (Return info, c)
  | _ =>
      match PhenologyApi.getPlantInformation member_text latitude longitude
              season with
      | Throw e => (Throw e, c)
      | Return info =>
          (Return info,
           cachePhenologyData c (set_now r) (set_accessed r) latitude longitude
             (mkCached (Some info) None))
      end
  end.

(** [getPhenologyMetrics] of the service, likewise, written as
    [{ phenologyMetrics }]; [month] is what the computation reads of the
    date. *)
Definition getPhenologyMetrics (c : Store Cached) (r : Readings) (month : Z)
    (latitude longitude ndvi : float) (season : option string)
  : Completion PhenologyApi.PhenologyMetrics * Store Cached :=
  let '(cached, c) :=
    getCachedPhenologyData Number_toString c (get_now r) (get_accessed r)
      latitude longitude in
  match cached with
  | Some (mkCached _ (Some metrics)) => (Return metrics, c)
  | _ =>
      match PhenologyApi.getPhenologyMetrics month latitude longitude ndvi
              season with
      | Throw e => (Throw e, c)
      | Return metrics =>
          (Return metrics,
           cachePhenologyData c (set_now r) (set_accessed r) latitude longitude
             (mkCached None (Some metrics)))
      end
  end.

End Lookups.

End PhenologyCache.

(** ** The historical series of the NDVI data service (nasaApi) *)

Module NasaTrends.
Import JS NasaApi.

Section Trends.

(** For the iteration that looks [i] months back: the ISO text of that
    date, the clock the fetch reads, and the outcome of the provider it
    awaits.  [date.toISOString()] throws a RangeError when [setMonth] has
    taken the date out of the range of [Date]; [date_text i] is then
    [None]. *)
Variable date_text : Z -> option string.
Variable clock_at : Z -> Clock.
Variable fetched_at : Z -> Completion NDVIData.

Fixpoint collect (latitude longitude : float) (indices : list Z)
  : Completion (list HistoricalComparison.TrendPoint) :=
  match indices with
  | [] => Return []
  | i :: rest =>
      match fetchNDVIData (clock_at i) (fetched_at i) latitude longitude with
      | Throw e => Throw e
      | Return ndviData =>
          match date_text i with
          | None => Throw "RangeError"
          | Some text =>
              match collect latitude longitude rest with
              | Throw e => Throw e
              | Return trends =>
                  Return (HistoricalComparison.mkTrendPoint text
                            (ndvi ndviData) (season ndviData) :: trends)
              end
          end
      end
  end.

(** The values of [i] in [for (let i = months; i >= 0; i--)], for an
    integer [months]. *)
Definition countdown (months : Z) : list Z :=
  map (fun k => months - Z.of_nat k) (seq 0 (Z.to_nat (months + 1))).

(** [fetchNDVITrends]; an error thrown in the loop is caught and the empty
    series returned. *)
Definition fetchNDVITrends (latitude longitude : float) (months : Z)
  : list HistoricalComparison.TrendPoint :=
  match collect latitude longitude (countdown months) with
  | Return trends => trends
  | Throw error => []
  end.

(** What the fetch of one iteration gives: the provider's observation, or
    the fallback one. *)
Definition observed (latitude longitude : float) (i : Z) : NDVIData :=
  match fetched_at i with
  | Return d => d
  | Throw _ => generateFallbackNDVI (clock_at i) latitude longitude
  end.

End Trends.

End NasaTrends.

(** ** The helper copies of the map component (WorldMapSection.jsx) *)

Module WorldMapHelpers.
Import JS.

(** The copy of [getSeasonForLocation]: every case sets the phase to
    'Mid'. *)
Definition getSeasonForLocation (now : NasaApi.Clock) (lat lng : float)
  : NasaApi.Season :=
  let month := NasaApi.month now in
  let isNorthern := (0 <? lat)%float in
  if isNorthern then
    match month with
    | 12 | 1 | 2 => NasaApi.mkSeason (Some "Winter") (Some "Mid")
    | 3 | 4 | 5 => NasaApi.mkSeason (Some "Spring") (Some "Mid")
    | 6 | 7 | 8 => NasaApi.mkSeason (Some "Summer") (Some "Mid")
    | 9 | 10 | 11 => NasaApi.mkSeason (Some "Autumn") (Some "Mid")
    | _ => NasaApi.mkSeason None None
    end
  else
    match month with
    | 12 | 1 | 2 => NasaApi.mkSeason (Some "Summer") (Some "Mid")
    | 3 | 4 | 5 => NasaApi.mkSeason (Some "Autumn") (Some "Mid")
    | 6 | 7 | 8 => NasaApi.mkSeason (Some "Winter") (Some "Mid")
    | 9 | 10 | 11 => NasaApi.mkSeason (Some "Spring") (Some "Mid")
    | _ => NasaApi.mkSeason None None
    end.

Definition getSeasonalNDVI (season : NasaApi.Season) (lat : float) : float :=
  let north := (0 <? lat)%float in
  let baseValues :=
    [ ("Winter", (0.2 + (if north then 0.1 else 0.3))%float);
      ("Spring", (0.4 + (if north then 0.2 else 0.1))%float);
      ("Summer", (0.7 + (if north then 0.1 else -0.1))%float);
      ("Autumn", (0.5 + (if north then 0.1 else 0.2))%float) ] in
  let base :=
    match get_property baseValues
            (default "undefined" (NasaApi.name season)) with
    | Own v => v
    | _ => nan
    end in
  Math_max 0.1 (Math_min 0.9 base).

Definition getPlantRegion (lat lng : float) : string :=
  let absLat := Math_abs lat in
  if (absLat <? 23.5)%float then "tropical"
  else if (0 <? lat)%float then "north_temperate" else "south_temperate".

Record MapNDVI : Type := mkMapNDVI
  { ndvi : float;
    season : option string;
    confidence : float;
    source : string;
    lastUpdated : string;
    trend : string }.

(** [getNDVIDataFromNASA]; [now] is the clock read for the season, [later]
    the one read after the simulated delay, and [r1], [r2], [r3] the three
    draws of [Math.random()], in order. *)
Definition getNDVIDataFromNASA (now later : NasaApi.Clock) (r1 r2 r3 : float)
    (lat lng : float) : MapNDVI :=
  let season := getSeasonForLocation now lat lng in
  let baseNDVI := getSeasonalNDVI season lat in
  let anomaly := ((r1 - 0.5) * 0.2)%float in
  mkMapNDVI (Math_max 0.1 (Math_min 0.9 (baseNDVI + anomaly)%float))
    (NasaApi.name season) (0.85 + r2 * 0.1)%float "NASA MODIS MOD13Q1"
    (NasaApi.toISOString later)
    (if (0.5 <? r3)%float then "increasing" else "stable").

End WorldMapHelpers.

(** ** The threshold rule as the specification words it *)

Module ClassifierSpec.
Import JS.

Inductive Season : Type := Spring | Summer | Autumn | Winter.

Definition Season_name (s : Season) : string :=
  match s with
  | Spring => "Spring"
  | Summer => "Summer"
  | Autumn => "Autumn"
  | Winter => "Winter"
  end.

Inductive Level : Type := Dormant | LowBloom | ActiveBloom | PeakBloom.

Definition Level_name (l : Level) : string :=
  match l with
  | Dormant => "Dormant"
  | LowBloom => "Low Bloom"
  | ActiveBloom => "Active Bloom"
  | PeakBloom => "Peak Bloom"
  end.

(** Dormant < Low Bloom < Active Bloom < Peak Bloom. *)
Definition Level_rank (l : Level) : nat :=
  match l with
  | Dormant => 0
  | LowBloom => 1
  | ActiveBloom => 2
  | PeakBloom => 3
  end.

(** The rank of a level given by its name (0 for any other string). *)
Definition level_rank (name : string) : nat :=
  if String.eqb name "Peak Bloom" then 3
  else if String.eqb name "Active Bloom" then 2
  else if String.eqb name "Low Bloom" then 1
  else 0.

(** The four numbers of a table row, in field order dormant, low, active,
    peak. *)
Definition Row : Type := (float * float * float * float)%type.

Definition base : Row := (0.30, 0.50, 0.70, 0.80)%float.

Definition delta (s : Season) : Row :=
  match s with
  | Spring => (-0.10, -0.05, 0, 0.05)%float
  | Summer => (0, 0, 0.05, 0.10)%float
  | Autumn => (0, 0, 0, 0)%float
  | Winter => (0.10, 0.05, -0.05, -0.10)%float
  end.

Definition floor_row : Row := (0.10, 0.20, 0.30, 0.40)%float.

(** +0.10 when |latitude| < 23.5, else 0. *)
Definition tropical_adjustment (latitude : float) : float :=
  if (abs latitude <? 23.5)%float then 0.10%float else 0%float.

(** Base plus seasonal delta plus latitude adjustment, then clamped from
    below. *)
Definition final_thresholds (s : Season) (latitude : float) : Row :=
  let '(bd, bl, ba, bp) := base in
  let '(dd, dl, da, dp) := delta s in
  let '(fd, fl, fa, fp) := floor_row in
  let t := tropical_adjustment latitude in
  (Math_max fd (bd + dd + t), Math_max fl (bl + dl + t),
   Math_max fa (ba + da + t), Math_max fp (bp + dp + t))%float.

(** The level of the highest threshold the index meets or exceeds, tested
    in the order peak, active, low. *)
Definition classify (index_value : float) (s : Season) (latitude : float)
  : Level :=
  let '(_, low, active, peak) := final_thresholds s latitude in
  if (peak <=? index_value)%float then PeakBloom
  else if (active <=? index_value)%float then ActiveBloom
  else if (low <=? index_value)%float then LowBloom
  else Dormant.

End ClassifierSpec.

(** ** The month-to-season tables as the specification words them *)

Module SeasonSpec.

(** Three months per season; the southern table is the northern one six
    months apart. *)
Definition northern_season (month : Z) : option string :=
  match month with
  | 12 | 1 | 2 => Some "Winter"
  | 3 | 4 | 5 => Some "Spring"
  | 6 | 7 | 8 => Some "Summer"
  | 9 | 10 | 11 => Some "Autumn"
  | _ => None
  end.

Definition southern_season (month : Z) : option string :=
  match month with
  | 12 | 1 | 2 => Some "Summer"
  | 3 | 4 | 5 => Some "Autumn"
  | 6 | 7 | 8 => Some "Winter"
  | 9 | 10 | 11 => Some "Spring"
  | _ => None
  end.

End SeasonSpec.

(** ** The percentile as the specification words it *)

Module PercentileSpec.

(** round(100 × i / n) on exact numbers, for n > 0: the nearest integer,
    a half going up. *)
Definition percentile (i n : Z) : Z := (200 * i + n) / (2 * n).

End PercentileSpec.

(** * Properties *)

(** ** Facts about the order on numbers *)

Lemma SFleb_trans (x y z : spec_float) :
  SFleb x y = true -> SFleb y z = true -> SFleb x z = true.
Proof.
  unfold SFleb, SFcompare.
  destruct x as [sx | sx | | sx mx ex], y as [sy | sy | | sy my ey],
    z as [sz | sz | | sz mz ez];
    repeat match goal with s : bool |- _ => destruct s end;
    try (intros; reflexivity); try (intros; discriminate);
    rewrite ?Pos.compare_cont_spec; simpl;
    destruct (Z.compare_spec ex ey), (Z.compare_spec ey ez),
      (Z.compare_spec ex ez); simpl; try lia; try (intros; discriminate);
    try (intros; reflexivity);
    destruct (Pos.compare_spec mx my), (Pos.compare_spec my mz),
      (Pos.compare_spec mx mz); simpl; try lia; try (intros; discriminate);
    intros; reflexivity.
Qed.

Lemma leb_trans (x y z : float) :
  (x <=? y)%float = true -> (y <=? z)%float = true -> (x <=? z)%float = true.
Proof. rewrite !FloatAxioms.leb_spec. apply SFleb_trans. Qed.

Lemma ltb_asym (x y : float) :
  (x <? y)%float = true -> (y <? x)%float = false.
Proof.
  rewrite !FloatAxioms.ltb_spec. unfold SFltb, SFcompare.
  destruct (Prim2SF x) as [sx | sx | | sx mx ex],
    (Prim2SF y) as [sy | sy | | sy my ey];
    repeat match goal with s : bool |- _ => destruct s end;
    try (intros; reflexivity); try (intros; discriminate);
    rewrite ?Pos.compare_cont_spec; simpl;
    rewrite (Z.compare_antisym ex ey), (Pos.compare_antisym mx my);
    destruct (ex ?= ey)%Z, (mx ?= my)%positive; simpl;
    try (intros; reflexivity); intros; discriminate.
Qed.

(** A rounded positive quantity is never below zero. *)
Lemma binary_round_not_negative (m : positive) (e : Z) (s : bool) :
  SFltb (binary_round prec emax false m e) (S754_zero s) = false.
Proof.
  unfold binary_round.
  destruct (shl_align m e _) as [mz ez].
  unfold binary_round_aux.
  destruct (shr_fexp prec emax (Z.pos mz) ez loc_Exact) as [mrs' e'].
  destruct (shr_fexp prec emax _ e' loc_Exact) as [mrs'' e''].
  destruct (shr_m mrs'') as [|p|p]; [reflexivity| |reflexivity].
  destruct (e'' <=? emax - prec)%Z; reflexivity.
Qed.

(** When [a - b] is negative, [b - a] is not. *)
Lemma sub_negative_asym (a b : float) :
  (a - b <? 0)%float = true -> (b - a <? 0)%float = false.
Proof.
  rewrite !FloatAxioms.ltb_spec, !FloatAxioms.sub_spec.
  change (Prim2SF 0) with (S754_zero false).
  unfold SF64sub, SFsub.
  destruct (Prim2SF a) as [sa | sa | | sa ma ea],
    (Prim2SF b) as [sb | sb | | sb mb eb];
    repeat match goal with s : bool |- _ => destruct s end;
    try (intros; reflexivity); try (intros; discriminate).
  all: rewrite (Z.min_comm eb ea); cbv zeta; unfold cond_Zopp;
    set (x := fst (shl_align ma ea (Z.min ea eb)));
    set (y := fst (shl_align mb eb (Z.min ea eb))).
  all: match goal with
       | |- SFltb (binary_normalize _ _ ?d _ _) _ = true ->
            SFltb (binary_normalize _ _ ?d' _ _) _ = false =>
           replace d' with (- d) by lia;
           destruct d as [|p|p]; cbn [Z.opp binary_normalize]
       end.
  all: try (intros; reflexivity);
    try (intros; apply binary_round_not_negative).
  all: rewrite binary_round_not_negative; intros; discriminate.
Qed.

(** ** The classifier of the bloom classification service *)

Section Classifier.
Import JS BloomClassification.

Lemma level_classifyBloomIntensity (ndvi : float) (season : string)
    (latitude : float) :
  level (classifyBloomIntensity ndvi season latitude)
  = level_by_tests (thresholds season latitude) ndvi.
Proof.
  unfold classifyBloomIntensity, level_by_tests.
  destruct (peak _ <=? ndvi)%float; [reflexivity|].
  destruct (active _ <=? ndvi)%float; [reflexivity|].
  destruct (low _ <=? ndvi)%float; reflexivity.
Qed.

(** The thresholds of a documented season take one of two values, by the
    latitude band. *)
Lemma thresholds_by_band (s : ClassifierSpec.Season) (latitude : float) :
  thresholds (ClassifierSpec.Season_name s) latitude
  = if (abs latitude <? 23.5)%float
    then thresholds (ClassifierSpec.Season_name s) 0
    else thresholds (ClassifierSpec.Season_name s) 90.
Proof.
  unfold thresholds, latitudeAdjustment, Math_abs.
  destruct (abs latitude <? 23.5)%float; destruct s; reflexivity.
Qed.

(** C1.  For every index value, each of the four seasons and every
    latitude, the thresholds of [classifyBloomIntensity] are the base
    values 0.30/0.50/0.70/0.80 plus the season's deltas plus 0.10 when
    |latitude| < 23.5 (else 0), each clamped from below by [Math.max] at
    0.10/0.20/0.30/0.40; they come out ordered low <= active <= peak, and
    the returned level is that of the highest threshold the index meets or
    exceeds, tested in the order peak, active, low, else Dormant. *)
Theorem classifyBloomIntensity_threshold_rule
    (index_value : float) (s : ClassifierSpec.Season) (latitude : float) :
  let t := thresholds (ClassifierSpec.Season_name s) latitude in
  (dormant t, low t, active t, peak t)
    = ClassifierSpec.final_thresholds s latitude
  /\ (low t <=? active t)%float = true
  /\ (active t <=? peak t)%float = true
  /\ level (classifyBloomIntensity index_value (ClassifierSpec.Season_name s)
              latitude)
     = ClassifierSpec.Level_name (ClassifierSpec.classify index_value s latitude)
  /\ (level (classifyBloomIntensity index_value (ClassifierSpec.Season_name s)
               latitude) = "Peak Bloom"
      <-> (peak t <=? index_value)%float = true)
  /\ (level (classifyBloomIntensity index_value (ClassifierSpec.Season_name s)
               latitude) = "Active Bloom"
      <-> (active t <=? index_value)%float = true
          /\ (peak t <=? index_value)%float = false)
  /\ (level (classifyBloomIntensity index_value (ClassifierSpec.Season_name s)
               latitude) = "Low Bloom"
      <-> (low t <=? index_value)%float = true
          /\ (active t <=? index_value)%float = false)
  /\ (level (classifyBloomIntensity index_value (ClassifierSpec.Season_name s)
               latitude) = "Dormant"
      <-> (low t <=? index_value)%float = false).
Proof.
  intros t.
  assert (Hrow : (dormant t, low t, active t, peak t)
                 = ClassifierSpec.final_thresholds s latitude).
  { unfold t, thresholds, latitudeAdjustment, Math_abs,
      ClassifierSpec.final_thresholds, ClassifierSpec.tropical_adjustment.
    destruct (abs latitude <? 23.5)%float; destruct s; reflexivity. }
  assert (Hla : (low t <=? active t)%float = true).
  { unfold t. rewrite thresholds_by_band.
    destruct (abs latitude <? 23.5)%float; destruct s; reflexivity. }
  assert (Hap : (active t <=? peak t)%float = true).
  { unfold t. rewrite thresholds_by_band.
    destruct (abs latitude <? 23.5)%float; destruct s; reflexivity. }
  rewrite level_classifyBloomIntensity. fold t.
  unfold ClassifierSpec.classify. rewrite <- Hrow.
  unfold level_by_tests.
  repeat split; try assumption;
    destruct (peak t <=? index_value)%float eqn:Hp;
    destruct (active t <=? index_value)%float eqn:Ha;
    destruct (low t <=? index_value)%float eqn:Hl;
    simpl; try reflexivity; try discriminate; try tauto;
    try (intros [? ?]; discriminate);
    try (pose proof (leb_trans _ _ _ Hap Hp); congruence);
    try (pose proof (leb_trans _ _ _ Hla Ha); congruence).
Qed.

(** C2.  Classifying 0.85 in Summer at latitude 10 does not give Peak
    Bloom. *)
Lemma classify_085_Summer_10_not_Peak :
  level (classifyBloomIntensity 0.85 "Summer" 10) <> "Peak Bloom".
Proof. vm_compute. discriminate. Qed.

(** C2, as the code has it.  Classifying 0.85 in Summer at latitude 10
    gives Active Bloom: the peak threshold is 0.80 + 0.10 + 0.10 = 1.00,
    which 0.85 does not reach, and the active threshold
    0.70 + 0.05 + 0.10 = 0.85 is met. *)
Theorem classify_085_Summer_10_Active :
  peak (thresholds "Summer" 10) = (0.8 + 0.1 + 0.1)%float
  /\ peak (thresholds "Summer" 10) = 1%float
  /\ (peak (thresholds "Summer" 10) <=? 0.85)%float = false
  /\ active (thresholds "Summer" 10) = (0.7 + 0.05 + 0.1)%float
  /\ active (thresholds "Summer" 10) = 0.85%float
  /\ level (classifyBloomIntensity 0.85 "Summer" 10) = "Active Bloom".
Proof. repeat split; vm_compute; reflexivity. Qed.

(** C3.  For every season and latitude, and all index values a <= b in
    [0,1], the level given to a is at most the level given to b, in the
    order Dormant < Low Bloom < Active Bloom < Peak Bloom. *)
Theorem classifyBloomIntensity_monotone
    (season : string) (latitude a b : float) :
  (0 <=? a)%float = true ->
  (a <=? b)%float = true ->
  (b <=? 1)%float = true ->
  (ClassifierSpec.level_rank (level (classifyBloomIntensity a season latitude))
   <= ClassifierSpec.level_rank
        (level (classifyBloomIntensity b season latitude)))%nat.
Proof.
  intros _ Hab _.
  rewrite !level_classifyBloomIntensity. unfold level_by_tests.
  set (t := thresholds season latitude).
  destruct (peak t <=? a)%float eqn:Hpa.
  { rewrite (leb_trans _ _ _ Hpa Hab). reflexivity. }
  destruct (active t <=? a)%float eqn:Haa.
  { rewrite (leb_trans _ _ _ Haa Hab).
    destruct (peak t <=? b)%float; vm_compute; lia. }
  destruct (low t <=? a)%float eqn:Hla.
  { rewrite (leb_trans _ _ _ Hla Hab).
    destruct (peak t <=? b)%float; [vm_compute; lia|].
    destruct (active t <=? b)%float; vm_compute; lia. }
  vm_compute. lia.
Qed.

Lemma classifyBloomIntensity_monotone_witness :
  (ClassifierSpec.level_rank
     (level (classifyBloomIntensity 0.3 "Spring" 40))
   <= ClassifierSpec.level_rank
        (level (classifyBloomIntensity 0.9 "Spring" 40)))%nat.
Proof.
  apply (classifyBloomIntensity_monotone "Spring" 40 0.3 0.9); reflexivity.
Defined.

(** C4.  The two copies of the classifier are not extensionally equal: at
    index 0.87 in Summer at latitude 50 the service answers Active Bloom
    and the map component Peak Bloom, with different confidences.  The
    service's thresholds move with the latitude; the map component never
    reads it. *)
Theorem classifier_copies_disagree :
  (exists ndvi season latitude c,
      WorldMapSection.classifyBloomIntensity ndvi season latitude = Return c
      /\ WorldMapSection.level c
         <> level (classifyBloomIntensity ndvi season latitude)
      /\ (WorldMapSection.confidence c
          =? confidence (classifyBloomIntensity ndvi season latitude))%float
         = false)
  /\ (exists ndvi season lat1 lat2,
         level (classifyBloomIntensity ndvi season lat1)
         <> level (classifyBloomIntensity ndvi season lat2))
  /\ (forall ndvi season lat1 lat2,
         WorldMapSection.classifyBloomIntensity ndvi season lat1
         = WorldMapSection.classifyBloomIntensity ndvi season lat2).
Proof.
  split; [|split].
  - exists 0.87%float, "Summer", 50%float.
    eexists. split; [reflexivity|].
    split; [vm_compute; discriminate | vm_compute; reflexivity].
  - exists 0.8%float, "Summer", 10%float, 50%float.
    vm_compute. discriminate.
  - reflexivity.
Qed.

End Classifier.

(** ** The NDVI data service *)

Section Provider.
Import JS NasaApi.

Lemma month_cases (m : Z) :
  1 <= m <= 12 ->
  m = 1 \/ m = 2 \/ m = 3 \/ m = 4 \/ m = 5 \/ m = 6 \/ m = 7 \/ m = 8
  \/ m = 9 \/ m = 10 \/ m = 11 \/ m = 12.
Proof. lia. Qed.

Ltac each_month H :=
  apply month_cases in H;
  repeat (destruct H as [H | H]); subst.

(** The fallback observation of any month of the year. *)
Lemma generateFallbackNDVI_shape (iso : string) (m : Z) (lat lon : float) :
  1 <= m <= 12 ->
  let fallback := generateFallbackNDVI (mkClock m iso) lat lon in
  (0.1 <=? ndvi fallback)%float = true
  /\ (ndvi fallback <=? 0.9)%float = true
  /\ confidence fallback = 0.6%float
  /\ source fallback = "Fallback".
Proof.
  intros H fallback. subst fallback.
  unfold generateFallbackNDVI, getSeasonalNDVI, getSeasonForLocation.
  cbn [month toISOString ndvi confidence source].
  destruct (0 <? lat)%float; each_month H;
    (repeat split; vm_compute; reflexivity).
Qed.

(** C5.  For every latitude and longitude, when the awaited fetch throws,
    [fetchNDVIData] does not throw: it returns the observation of the
    fallback generator, whose index value lies in [0.1, 0.9], whose
    confidence is 0.6, below 0.85, and whose source tag is 'Fallback'. *)
Theorem fetchNDVIData_recovers_with_fallback
    (now : Clock) (latitude longitude : float) (error : string) :
  1 <= month now <= 12 ->
  exists observation,
    fetchNDVIData now (Throw error) latitude longitude = Return observation
    /\ observation = generateFallbackNDVI now latitude longitude
    /\ (0.1 <=? ndvi observation)%float = true
    /\ (ndvi observation <=? 0.9)%float = true
    /\ confidence observation = 0.6%float
    /\ (confidence observation <? 0.85)%float = true
    /\ source observation = "Fallback".
Proof.
  intros H. destruct now as [m iso]. cbn [month] in H.
  eexists. split; [reflexivity|]. split; [reflexivity|].
  destruct (generateFallbackNDVI_shape iso m latitude longitude H)
    as (Hlo & Hhi & Hc & Hs).
  split; [exact Hlo|]. split; [exact Hhi|]. split; [exact Hc|].
  split; [rewrite Hc; reflexivity | exact Hs].
Qed.

Lemma fetchNDVIData_recovers_with_fallback_witness :
  exists observation,
    fetchNDVIData (mkClock 4 "2024-04-15T00:00:00.000Z") (Throw "Network Error")
      48.85 2.35 = Return observation
    /\ observation
       = generateFallbackNDVI (mkClock 4 "2024-04-15T00:00:00.000Z") 48.85 2.35
    /\ (0.1 <=? ndvi observation)%float = true
    /\ (ndvi observation <=? 0.9)%float = true
    /\ confidence observation = 0.6%float
    /\ (confidence observation <? 0.85)%float = true
    /\ source observation = "Fallback".
Proof.
  apply (fetchNDVIData_recovers_with_fallback
           (mkClock 4 "2024-04-15T00:00:00.000Z") 48.85 2.35 "Network Error").
  cbn [month]. lia.
Defined.

(** C8.  At latitude 0 in January the resolver answers Summer, the season
    of the southern table, not Winter, that of the northern one. *)
Lemma getSeasonForLocation_equator_not_northern :
  name (getSeasonForLocation (mkClock 1 "2024-01-15T00:00:00.000Z") 0 0)
  <> SeasonSpec.northern_season 1.
Proof. vm_compute. discriminate. Qed.

(** C8, as the code has it.  The resolver uses the northern table exactly
    when 0 < latitude: at latitude 0 and every month it uses the southern
    table, as it does for every strictly negative latitude, and the two
    tables differ in every month of the year. *)
Theorem getSeasonForLocation_hemisphere
    (now : Clock) (lat lon : float) :
  name (getSeasonForLocation now lat lon)
  = (if (0 <? lat)%float then SeasonSpec.northern_season (month now)
     else SeasonSpec.southern_season (month now))
  /\ name (getSeasonForLocation now 0 lon)
     = SeasonSpec.southern_season (month now)
  /\ ((lat <? 0)%float = true ->
      name (getSeasonForLocation now lat lon)
      = SeasonSpec.southern_season (month now))
  /\ (1 <= month now <= 12 ->
      SeasonSpec.northern_season (month now)
      <> SeasonSpec.southern_season (month now)
      /\ SeasonSpec.southern_season (month now)
         = SeasonSpec.northern_season
             (if (month now <=? 6)%Z then month now + 6 else month now - 6)).
Proof.
  assert (Hname : forall l,
             name (getSeasonForLocation now l lon)
             = if (0 <? l)%float then SeasonSpec.northern_season (month now)
               else SeasonSpec.southern_season (month now)).
  { intros l. unfold getSeasonForLocation.
    destruct (0 <? l)%float;
      (destruct (month now) as [|p|p]; [reflexivity| |reflexivity]);
      repeat (destruct p as [p|p|]; try reflexivity). }
  split; [apply Hname|]. split; [apply (Hname 0%float)|]. split.
  - intros Hneg. rewrite Hname, (ltb_asym _ _ Hneg). reflexivity.
  - intros H. apply month_cases in H.
    repeat (destruct H as [H | H]); rewrite H;
      (split; [vm_compute; discriminate | reflexivity]).
Qed.

End Provider.

(** ** The cache and the cache check of the service *)

Section CacheProperties.
Import JS DataCache BloomDataService.

Context {Value : Type}.
Variable Number_toString : float -> string.
Variable truthy : Value -> bool.

Lemma get_valid (c : Store Value) (now accessed : Z) (key dtype : string)
    (v : Value) (c' : Store Value) :
  get c now accessed key dtype = (Some v, c') ->
  isCacheValid c now key dtype = true
  /\ exists e, cache c !! key = Some e /\ DataCache.data e = v.
Proof.
  unfold get. destruct (isCacheValid c now key dtype) eqn:Hvalid.
  - destruct (cache c !! key) as [e|] eqn:He; [|discriminate].
    intros [= <- _]. split; [reflexivity|]. exists e. split; reflexivity.
  - discriminate.
Qed.

Lemma get_invalid (c : Store Value) (now accessed : Z) (key dtype : string) :
  isCacheValid c now key dtype = false ->
  get c now accessed key dtype
  = (None, saveToStorage (with_cache c (delete key (cache c)))).
Proof. unfold get. intros ->. reflexivity. Qed.

Lemma isCacheValid_expired (c : Store Value) (now : Z) (key dtype : string)
    (e : CacheEntry Value) :
  cache c !! key = Some e ->
  (forall d, duration_of dtype = Some d -> d <= now - timestamp e) ->
  isCacheValid c now key dtype = false.
Proof.
  intros He Hd. unfold isCacheValid. rewrite He.
  destruct (duration_of dtype) as [d|]; [|reflexivity].
  apply Z.ltb_ge. apply Hd. reflexivity.
Qed.

(** The first-time cleanup keeps an entry as it is or removes it. *)
Lemma cleanup_lookup (c : Store Value) (now : Z) (key : string) :
  cache (cleanup c now) !! key = cache c !! key
  \/ cache (cleanup c now) !! key = None.
Proof.
  assert (H : forall P `{!forall x, Decision (P x)},
             filter P (cache c) !! key = cache c !! key
             \/ filter P (cache c) !! key = None).
  { intros P HP. destruct (filter P (cache c) !! key) as [e|] eqn:He.
    - apply map_lookup_filter_Some in He. left. symmetry. apply He.
    - right. reflexivity. }
  unfold cleanup. cbv zeta.
  destruct (0 <? _)%nat; apply H.
Qed.

Lemma initialize_lookup (s : Service) (now : Z) (key : string) :
  (cache (dataCache (initialize s now)) !! key = cache (dataCache s) !! key
   \/ cache (dataCache (initialize s now)) !! key = None)
  /\ requestQueue (initialize s now) = requestQueue (Value := Value) s.
Proof.
  unfold initialize. destruct (isInitialized s).
  - split; [left|]; reflexivity.
  - split; [apply cleanup_lookup | reflexivity].
Qed.

(** C6.  The durations are 7, 14, 30 and 90 days for NDVI, phenology,
    images and the composed location answer.  For every key and data type,
    [get] returns a stored value only if the clock reading minus the
    entry's write timestamp is strictly less than the duration of the
    type; an expired entry is deleted and null is returned.  So
    [getBloomData] with forceRefresh = false, finding an expired entry
    under the location's key, answers with the request in flight or the
    fresh fetch, never with the entry. *)
Theorem cache_serves_only_unexpired :
  (duration_of "NDVI" = Some (7 * 86400000)
   /\ duration_of "PHENOLOGY" = Some (14 * 86400000)
   /\ duration_of "IMAGES" = Some (30 * 86400000)
   /\ duration_of "LOCATIONS" = Some (90 * 86400000))
  /\ (forall (c : Store Value) (now accessed : Z) (key dtype : string)
        (v : Value) (c' : Store Value),
        get c now accessed key dtype = (Some v, c') ->
        exists e d,
          cache c !! key = Some e /\ DataCache.data e = v
          /\ duration_of dtype = Some d /\ now - timestamp e < d)
  /\ (forall (c : Store Value) (now accessed : Z) (key dtype : string)
        (e : CacheEntry Value),
        cache c !! key = Some e ->
        (forall d, duration_of dtype = Some d -> d <= now - timestamp e) ->
        exists c',
          get c now accessed key dtype = (None, c')
          /\ cache c' !! key = None)
  /\ (forall (s : Service) (r : Readings) (latitude longitude : float)
        (e : CacheEntry Value),
        cache (dataCache s)
          !! generateKey Number_toString latitude longitude "LOCATIONS"
        = Some e ->
        90 * 86400000 <= get_now r - timestamp e ->
        fst (getBloomData Number_toString truthy s r latitude longitude false)
        = match requestQueue s
                  !! (Number_toString latitude +:+ "_" +:+
                      Number_toString longitude) with
          | Some requestPromise => requestPromise
          | None => fetched r
          end).
Proof.
  split; [repeat split|]. split; [|split].
  - intros c now accessed key dtype v c' Hget.
    destruct (get_valid _ _ _ _ _ _ _ Hget) as (Hvalid & e & He & Hv).
    unfold isCacheValid in Hvalid. rewrite He in Hvalid.
    destruct (duration_of dtype) as [d|]; [|discriminate].
    exists e, d. repeat split; try assumption.
    apply Z.ltb_lt. exact Hvalid.
  - intros c now accessed key dtype e He Hd.
    eexists. split.
    + apply get_invalid. eapply isCacheValid_expired; eassumption.
    + cbn. apply lookup_delete_eq.
  - intros s r latitude longitude e He Hold.
    unfold getBloomData, start.
    destruct (initialize_lookup s (cleanup_now r)
                (generateKey Number_toString latitude longitude "LOCATIONS"))
      as [Hkey Hqueue].
    set (s0 := initialize s (cleanup_now r)) in *.
    assert (Hinvalid : isCacheValid (dataCache s0) (get_now r)
                         (generateKey Number_toString latitude longitude
                            "LOCATIONS") "LOCATIONS" = false).
    { destruct Hkey as [Hkey | Hkey].
      - eapply isCacheValid_expired.
        + rewrite Hkey. exact He.
        + intros d [= <-]. exact Hold.
      - unfold isCacheValid. rewrite Hkey. reflexivity. }
    unfold getCachedLocationData.
    rewrite (get_invalid _ _ _ _ _ Hinvalid).
    cbn [requestQueue isInitialized dataCache refreshQueue].
    rewrite Hqueue.
    destruct (requestQueue s !! _) as [p|]; reflexivity.
Qed.

End CacheProperties.

Lemma cache_serves_only_unexpired_witness :
  exists c',
    DataCache.get
      (DataCache.mkStore
         {[ "LOCATIONS_35.68_139.69"
            := DataCache.mkCacheEntry 7%nat 0 "LOCATIONS" 0 0 ]} ∅
         (fun _ => true) 0)
      (90 * 86400000) (90 * 86400000) "LOCATIONS_35.68_139.69" "LOCATIONS"
    = (None, c')
    /\ DataCache.cache c' !! "LOCATIONS_35.68_139.69" = None.
Proof.
  apply (proj1 (proj2 (proj2
           (cache_serves_only_unexpired (Value := nat)
              (fun _ => "0") (fun _ => true))))
           _ _ _ _ _ (DataCache.mkCacheEntry 7%nat 0 "LOCATIONS" 0 0)).
  - apply lookup_singleton_eq.
  - intros d Hd. vm_compute in Hd. injection Hd as <-. cbn. lia.
Defined.

(** ** The batch operation *)

Section BatchProperties.
Import JS DataCache BloomDataService.

Context {Value : Type}.
Variable Number_toString : float -> string.
Variable truthy : Value -> bool.
Variable env : nat -> Readings (Value := Value).
Variable schedule : list nat.

#[local] Abbreviation start := (BloomDataService.start Number_toString truthy).
#[local] Abbreviation getBloomData :=
  (BloomDataService.getBloomData Number_toString truthy).
#[local] Abbreviation requests :=
  (BloomDataService.requests Number_toString truthy env).
#[local] Abbreviation getBatchBloomData :=
  (BloomDataService.getBatchBloomData Number_toString truthy env schedule).

(** The promise a call returns is fixed when the call first waits. *)
Lemma getBloomData_promise (s : Service) (r : Readings)
    (latitude longitude : float) (forceRefresh : bool) :
  fst (getBloomData s r latitude longitude forceRefresh)
  = match fst (start s r latitude longitude forceRefresh) with
    | Answered p => p
    | Awaiting _ p => p
    end.
Proof.
  unfold BloomDataService.getBloomData.
  destruct (start s r latitude longitude forceRefresh) as [[p | key p] s1];
    reflexivity.
Qed.

Lemma requests_cons (s : Service) (index : nat) (l : Location)
    (rest : list Location) (forceRefresh : bool) :
  let first := start s (env index) (latitude l) (longitude l) forceRefresh in
  fst (fst (requests s index (l :: rest) forceRefresh))
  = fst (getBloomData s (env index) (latitude l) (longitude l) forceRefresh)
    :: fst (fst (requests (snd first) (S index) rest forceRefresh))
  /\ snd (requests s index (l :: rest) forceRefresh)
     = snd (requests (snd first) (S index) rest forceRefresh).
Proof.
  cbv zeta. rewrite getBloomData_promise. cbn [BloomDataService.requests].
  destruct (start s (env index) (latitude l) (longitude l) forceRefresh)
    as [call s1].
  cbn [fst snd].
  destruct (requests s1 (S index) rest forceRefresh) as [[ps qs] s2].
  destruct call; split; reflexivity.
Qed.

Lemma requests_length (locations : list Location) :
  forall (s : Service) (index : nat) (forceRefresh : bool),
    length (fst (fst (requests s index locations forceRefresh)))
    = length locations.
Proof.
  induction locations as [|l rest IH]; intros s index forceRefresh.
  - reflexivity.
  - rewrite (proj1 (requests_cons s index l rest forceRefresh)).
    cbn [length]. rewrite IH. reflexivity.
Qed.

(** The promise at each index is that of [getBloomData] for the point,
    called where the calls for the points before it have got to. *)
Lemma requests_lookup (locations : list Location) :
  forall (s : Service) (first : nat) (forceRefresh : bool) (index : nat)
    (l : Location),
    locations !! index = Some l ->
    fst (fst (requests s first locations forceRefresh)) !! index
    = Some (fst (getBloomData
                   (snd (requests s first (take index locations) forceRefresh))
                   (env (first + index)) (latitude l) (longitude l)
                   forceRefresh)).
Proof.
  induction locations as [|l0 rest IH];
    intros s first forceRefresh index l Hl; [discriminate|].
  rewrite (proj1 (requests_cons s first l0 rest forceRefresh)).
  destruct index as [|index].
  - injection Hl as ->. rewrite Nat.add_0_r. reflexivity.
  - cbn [take]. rewrite (proj2 (requests_cons s first l0 _ forceRefresh)).
    replace (first + S index)%nat with (S first + index)%nat by lia.
    apply (IH _ (S first) forceRefresh index l). exact Hl.
Qed.

(** C7.  For every list of n locations, [getBatchBloomData] returns, and
    never throws; its answer has exactly n slots, in input order.  The slot
    of a point records how the [getBloomData] call for that point ends,
    the call being made where the calls for the points before it have got
    to: when it is rejected the slot has data null and the rejection
    reason as error, otherwise it carries the value the call is fulfilled
    with, and error null. *)
Theorem getBatchBloomData_partial_results
    (s : Service) (now : Z) (locations : list Location) (forceRefresh : bool) :
  exists slots s',
    getBatchBloomData s now locations forceRefresh = (Return slots, s')
    /\ length slots = length locations
    /\ forall index l,
         locations !! index = Some l ->
         exists slot,
           slots !! index = Some slot
           /\ location slot = Some l
           /\ match
                fst (getBloomData
                       (snd (requests (initialize s now) 0
                               (take index locations) forceRefresh))
                       (env index) (latitude l) (longitude l) forceRefresh)
              with
              | Return value =>
                  BloomDataService.data slot = Some value
                  /\ error slot = None
              | Throw reason =>
                  BloomDataService.data slot = None
                  /\ error slot = Some reason
              end.
Proof.
  unfold BloomDataService.getBatchBloomData.
  pose proof (requests_length locations (initialize s now) 0 forceRefresh)
    as Hlen.
  pose proof (requests_lookup locations (initialize s now) 0 forceRefresh)
    as Hlookup.
  destruct (requests (initialize s now) 0 locations forceRefresh)
    as [[promises pending] s1].
  cbn [fst] in *.
  eexists _, _. split; [reflexivity|]. split.
  - rewrite length_imap. unfold Promise_allSettled.
    rewrite length_fmap. exact Hlen.
  - intros index l Hl. specialize (Hlookup index l Hl).
    cbn [Nat.add] in Hlookup.
    eexists. rewrite list_lookup_imap. unfold Promise_allSettled.
    rewrite list_lookup_fmap, Hlookup. cbn [fmap option_fmap option_map].
    split; [reflexivity|]. split; [exact Hl|].
    destruct (fst (getBloomData _ _ _ _ _)); split; reflexivity.
Qed.

End BatchProperties.

(** A batch of five points whose third fetch fails: five slots come back,
    four with their value and the third with the error.  (The keys print
    the coordinates with two decimals here.) *)
Example getBatchBloomData_five_points :
  let env := fun i : nat =>
    BloomDataService.mkReadings 1000 1000 1001 1002 1003
      [ BloomDataService.CacheSet BloomDataService.NDVIEntry (i + 100)%nat
          1500 1501 ]
      (if Nat.eqb i 2 then JS.Throw "Failed to fetch bloom data: timeout"
       else JS.Return (i + 10)%nat)
      2000 2001 in
  let service :=
    BloomDataService.mkService false ∅
      (DataCache.mkStore ∅ ∅ (fun _ => true) 0) ∅ in
  let locations :=
    [ BloomDataService.mkLocation 35.68 139.69;
      BloomDataService.mkLocation 48.85 2.35;
      BloomDataService.mkLocation (-33.87) 151.21;
      BloomDataService.mkLocation 1.35 103.82;
      BloomDataService.mkLocation 40.71 (-74.01) ] in
  fst (BloomDataService.getBatchBloomData JS.toFixed2 (fun _ => true) env
         [3; 1; 4; 1; 5; 9; 2; 6]%nat service 500 locations false)
  = JS.Return
      [ BloomDataService.mkSlot
          (Some (BloomDataService.mkLocation 35.68 139.69)) (Some 10%nat) None;
        BloomDataService.mkSlot
          (Some (BloomDataService.mkLocation 48.85 2.35)) (Some 11%nat) None;
        BloomDataService.mkSlot
          (Some (BloomDataService.mkLocation (-33.87) 151.21)) None
          (Some "Failed to fetch bloom data: timeout");
        BloomDataService.mkSlot
          (Some (BloomDataService.mkLocation 1.35 103.82)) (Some 13%nat) None;
        BloomDataService.mkSlot
          (Some (BloomDataService.mkLocation 40.71 (-74.01))) (Some 14%nat)
          None ].
Proof. vm_compute. reflexivity. Qed.

(** Two calls of a batch for the same coordinates share one request: the
    second returns the request the first has queued, so both slots carry
    the value of the first fetch, and the fetch of the second is never
    made. *)
Example getBatchBloomData_same_point_twice :
  let env := fun i : nat =>
    BloomDataService.mkReadings 1000 1000 1001 1002 1003 []
      (JS.Return (i + 10)%nat) 2000 2001 in
  let service :=
    BloomDataService.mkService false ∅
      (DataCache.mkStore ∅ ∅ (fun _ => true) 0) ∅ in
  let locations :=
    [ BloomDataService.mkLocation 35.68 139.69;
      BloomDataService.mkLocation 35.68 139.69 ] in
  forall forceRefresh schedule,
    fst (BloomDataService.getBatchBloomData JS.toFixed2 (fun _ => true) env
           schedule service 500 locations forceRefresh)
    = JS.Return
        [ BloomDataService.mkSlot
            (Some (BloomDataService.mkLocation 35.68 139.69)) (Some 10%nat)
            None;
          BloomDataService.mkSlot
            (Some (BloomDataService.mkLocation 35.68 139.69)) (Some 10%nat)
            None ].
Proof.
  intros env service locations forceRefresh schedule.
  unfold BloomDataService.getBatchBloomData.
  destruct (BloomDataService.requests _ _ _ _ _ _ _)
    as [[promises pending] s1] eqn:Hrequests.
  cbn [fst]. destruct forceRefresh; vm_compute in Hrequests;
    injection Hrequests as <- _ _; reflexivity.
Qed.

(** ** The historical comparison *)

Section Percentile.
Import JS HistoricalComparison.

Lemma insert_sorted_Permutation (x : float) (l : list float) :
  Permutation (insert_sorted x l) (x :: l).
Proof.
  induction l as [|y rest IH]; cbn [insert_sorted].
  - reflexivity.
  - destruct (y - x <? 0)%float.
    + rewrite IH. apply perm_swap.
    + reflexivity.
Qed.

Lemma rearrange_Permutation {A : Type} (l : list A) :
  forall places, Permutation (rearrange places l) l.
Proof.
  induction l as [|x rest IH]; intros places; cbn [rearrange].
  - reflexivity.
  - cbv zeta. rewrite <- Permutation_middle. apply perm_skip.
    rewrite take_drop. apply IH.
Qed.

(** Every rearrangement of a list is reached. *)
Lemma rearrange_complete {A : Type} (l : list A) :
  forall l', Permutation l l' -> exists places, rearrange places l = l'.
Proof.
  induction l as [|x rest IH]; intros l' Hperm.
  - apply Permutation_nil in Hperm. subst l'. exists []. reflexivity.
  - assert (Hin : In x l')
      by (eapply Permutation_in; [exact Hperm | left; reflexivity]).
    apply in_split in Hin as (l1 & l2 & ->).
    apply Permutation_cons_app_inv in Hperm.
    destruct (IH _ Hperm) as [places Hplaces].
    exists (length l1 :: places). cbn [rearrange hd tl]. cbv zeta.
    rewrite Hplaces.
    rewrite Nat.mod_small by (rewrite length_app; lia).
    rewrite take_app_length, drop_app_length. reflexivity.
Qed.

Lemma sort_Permutation (engine_places : list float -> list nat)
    (l : list float) :
  Permutation (sort engine_places l) l.
Proof.
  unfold sort. destruct (forallb _ l).
  - induction l as [|x rest IH]; cbn [fold_right].
    + reflexivity.
    + rewrite insert_sorted_Permutation. apply perm_skip. exact IH.
  - apply rearrange_Permutation.
Qed.

Lemma insert_sorted_Sorted (x : float) (l : list float) :
  Sorted in_order l -> Sorted in_order (insert_sorted x l).
Proof.
  induction l as [|y rest IH]; intros Hl; cbn [insert_sorted].
  - repeat constructor.
  - destruct (y - x <? 0)%float eqn:Hyx.
    + apply Sorted_inv in Hl as [Hrest Hhd].
      constructor; [apply IH; exact Hrest|].
      destruct rest as [|z rest']; cbn [insert_sorted].
      * constructor. apply sub_negative_asym. exact Hyx.
      * destruct (z - x <? 0)%float.
        -- constructor. apply HdRel_inv in Hhd. exact Hhd.
        -- constructor. apply sub_negative_asym. exact Hyx.
    + constructor; [exact Hl|]. constructor. exact Hyx.
Qed.

(** A series without [NaN] comes out in the ascending order of the
    comparator. *)
Lemma sort_Sorted (engine_places : list float -> list nat) (l : list float) :
  Forall (fun v => is_nan v = false) l ->
  Sorted in_order (sort engine_places l).
Proof.
  intros Hl. unfold sort.
  replace (forallb (fun v => negb (is_nan v)) l) with true.
  - clear Hl. induction l as [|x rest IH]; cbn [fold_right].
    + constructor.
    + apply insert_sorted_Sorted. exact IH.
  - symmetry. apply forallb_forall. intros v Hv.
    rewrite Forall_forall in Hl. rewrite (Hl v); [reflexivity|].
    apply list_elem_of_In. exact Hv.
Qed.

(** [findIndex] answers -1 when no element passes the test, and otherwise
    the position of the first element that passes. *)
Lemma findIndex_spec {A : Type} (test : A -> bool) (l : list A) :
  (findIndex test l = -1 /\ Forall (fun x => test x = false) l)
  \/ (0 <= findIndex test l < Z.of_nat (length l)
      /\ exists x,
           l !! Z.to_nat (findIndex test l) = Some x
           /\ test x = true
           /\ forall j y,
                (j < Z.to_nat (findIndex test l))%nat ->
                l !! j = Some y -> test y = false).
Proof.
  induction l as [|a rest IH]; cbn [findIndex].
  - left. split; [reflexivity | constructor].
  - destruct (test a) eqn:Ha.
    + right. split; [cbn [length]; lia|].
      exists a. split; [reflexivity|]. split; [exact Ha|].
      intros j y Hj. cbn in Hj. lia.
    + destruct IH as [[Hi Hall] | (Hi & x & Hx & Htx & Hbefore)].
      * left. rewrite Hi. split; [reflexivity|].
        constructor; assumption.
      * right. destruct (findIndex test rest <? 0)%Z eqn:Hneg;
          [apply Z.ltb_lt in Hneg; lia|].
        split; [cbn [length]; lia|].
        exists x.
        replace (Z.to_nat (findIndex test rest + 1))
          with (S (Z.to_nat (findIndex test rest))) by lia.
        split; [exact Hx|]. split; [exact Htx|].
        intros [|j] y Hj Hy.
        -- cbn in Hy. congruence.
        -- cbn in Hy. apply (Hbefore j y); [lia | exact Hy].
Qed.

(** C10.  With current value 0.235 against the series 0.01, 0.02, ...,
    0.40, the first element of the sorted series that is at least the
    current value is at position i = 23 of n = 40, and the reported
    percentile is 57, not round(100 × 23 / 40) = round(57.5) = 58 (the
    half goes up under every usual rounding rule here). *)
Lemma compareWithHistorical_percentile_not_exact :
  let currentBloom :=
    NasaApi.mkNDVIData 35.68 139.69 0.235 0 "2024-04-15T00:00:00.000Z" 0.9
      "MODIS" (Some "Spring") (Some "Mid") in
  let historicalData :=
    map (fun k => mkTrendPoint "" (of_Z (Z.of_nat k) / 100)%float None)
      (seq 1 40) in
  let sorted := sort (fun _ => []) (map ndvi historicalData) in
  let i := findIndex (fun v => (NasaApi.ndvi currentBloom <=? v)%float) sorted in
  let n := Z.of_nat (length historicalData) in
  i = 23 /\ n = 40
  /\ PercentileSpec.percentile i n = 58
  /\ percentile (compareWithHistorical (fun _ => []) currentBloom historicalData)
     = Some 57%float
  /\ percentile (compareWithHistorical (fun _ => []) currentBloom historicalData)
     <> Some (of_Z (PercentileSpec.percentile i n)).
Proof.
  cbv zeta. split; [vm_compute; reflexivity|].
  split; [vm_compute; reflexivity|].
  split; [vm_compute; reflexivity|].
  split; [vm_compute; reflexivity|].
  intros H. apply (f_equal (fun p => match p with
                                     | Some p => Prim2SF p
                                     | None => S754_nan
                                     end)) in H.
  vm_compute in H. discriminate.
Qed.

(** C10, as the code has it.  With a non-empty historical series of
    length n, the reported percentile is [Math.round((i / n) * 100)],
    computed in binary64 with the quotient taken first, where i is what
    [findIndex] gives on the sorted series for the test "at least the
    current value": the position of the first such element, or -1 when
    there is none.  The sorted series is a rearrangement of the historical
    one, in the ascending order of the comparator [a - b] when the series
    holds no [NaN].  With current value 0.9 against the series 0.5, 0.3,
    0.7, every historical value is strictly smaller, i is -1 and the
    percentile is -33, outside [0, 100]. *)
Theorem compareWithHistorical_percentile :
  (forall (engine_places : list float -> list nat)
      (currentBloom : NasaApi.NDVIData) (first : TrendPoint)
      (rest : list TrendPoint),
      let historicalData := first :: rest in
      let value := NasaApi.ndvi currentBloom in
      let sorted := sort engine_places (map ndvi historicalData) in
      let n := Z.of_nat (length historicalData) in
      let i := findIndex (fun v => (value <=? v)%float) sorted in
      percentile (compareWithHistorical engine_places currentBloom
                    historicalData)
      = Some (Math_round (of_Z i / of_Z n * 100)%float)
      /\ Permutation sorted (map ndvi historicalData)
      /\ (Forall (fun d => is_nan (ndvi d) = false) historicalData ->
          Sorted in_order sorted)
      /\ ((i = -1 /\ Forall (fun v => (value <=? v)%float = false) sorted)
          \/ (0 <= i < n
              /\ exists v,
                   sorted !! Z.to_nat i = Some v
                   /\ (value <=? v)%float = true
                   /\ forall j w,
                        (j < Z.to_nat i)%nat ->
                        sorted !! j = Some w -> (value <=? w)%float = false)))
  /\ (exists (engine_places : list float -> list nat)
        (currentBloom : NasaApi.NDVIData)
        (historicalData : list TrendPoint) (p : float),
        Forall (fun d => (ndvi d <? NasaApi.ndvi currentBloom)%float = true)
          historicalData
        /\ sort engine_places (map ndvi historicalData) = [0.3; 0.5; 0.7]%float
        /\ findIndex (fun v => (NasaApi.ndvi currentBloom <=? v)%float)
             (sort engine_places (map ndvi historicalData)) = -1
        /\ percentile (compareWithHistorical engine_places currentBloom
                         historicalData)
           = Some p
        /\ p = (-33)%float
        /\ (p <? 0)%float = true
        /\ (0 <=? p)%float = false).
Proof.
  split.
  - intros engine_places currentBloom first rest historicalData value sorted
      n i.
    split; [|split; [|split]].
    + unfold compareWithHistorical, calculatePercentile. cbn [percentile].
      subst i n sorted value historicalData.
      do 3 f_equal. rewrite (Permutation_length (sort_Permutation _ _)).
      rewrite length_map. reflexivity.
    + apply sort_Permutation.
    + intros Hnan. apply sort_Sorted. rewrite Forall_map. exact Hnan.
    + subst i n historicalData.
      replace (length (first :: rest)) with (length sorted)
        by (subst sorted;
            rewrite (Permutation_length (sort_Permutation _ _));
            apply length_map).
      apply findIndex_spec.
  - exists (fun _ => []),
      (NasaApi.mkNDVIData 35.68 139.69 0.9 0
         "2024-04-15T00:00:00.000Z" 0.9 "MODIS" (Some "Spring")
         (Some "Mid")),
      [ mkTrendPoint "2024-01-15T00:00:00.000Z" 0.5 (Some "Winter");
        mkTrendPoint "2024-02-15T00:00:00.000Z" 0.3 (Some "Winter");
        mkTrendPoint "2024-03-15T00:00:00.000Z" 0.7 (Some "Spring") ],
      (-33)%float.
    split; [repeat constructor|].
    repeat split; vm_compute; reflexivity.
Qed.

(** In binary64 the quotient is taken first: 29 of 200 gives 14, where the
    exact value 14.5 would round to 15. *)
Remark calculatePercentile_quotient_first :
  Math_round (of_Z 29 / of_Z 200 * 100)%float = 14%float
  /\ Math_round (100 * of_Z 29 / of_Z 200)%float = 15%float.
Proof. split; vm_compute; reflexivity. Qed.

End Percentile.

(** ** The forecast engine *)

Section ForecastProperties.
Import JS ForecastEngine.

Variable fit : list Observation -> nat -> list ForecastPoint.

Lemma flat_length (v : float) (n : nat) :
  forall offset, length (flat v offset n) = n.
Proof.
  induction n as [|n IH]; intros offset; cbn [flat length].
  - reflexivity.
  - rewrite IH. reflexivity.
Qed.

Lemma flat_values (v : float) (n : nat) :
  forall offset,
    Forall (fun p => predicted_index p = v /\ lower_bound p = v
                     /\ upper_bound p = v) (flat v offset n).
Proof.
  induction n as [|n IH]; intros offset; cbn [flat]; constructor.
  - repeat split.
  - apply IH.
Qed.

(** C9.  The forecast operation returns for every historical series and
    never throws.  On the empty series it returns the empty sequence.  On
    a series with fewer than 2 distinct data points it returns the flat
    forecast, one point per requested month, each repeating the last known
    value, tagged as low-confidence. *)
Theorem forecast_total (history : list Observation) (months : nat) :
  (exists f, forecast fit history months = Return f)
  /\ (exists f, forecast fit [] months = Return f /\ points f = [])
  /\ (history <> [] ->
      (distinct_points history < 2)%nat ->
      exists f first,
        forecast fit history months = Return f
        /\ low_confidence f = true
        /\ length (points f) = months
        /\ Forall (fun p => predicted_index p = snd (List.last history first)
                            /\ lower_bound p = snd (List.last history first)
                            /\ upper_bound p = snd (List.last history first))
             (points f)).
Proof.
  split; [|split].
  - unfold forecast. destruct history as [|first rest]; [eexists; reflexivity|].
    destruct (_ <? 2)%nat; eexists; reflexivity.
  - eexists. split; reflexivity.
  - intros Hne Hfew. destruct history as [|first rest]; [congruence|].
    unfold forecast.
    destruct (Nat.ltb_spec (distinct_points (first :: rest)) 2) as [_|Hge];
      [|lia].
    eexists _, first. split; [reflexivity|]. cbn [low_confidence points].
    split; [reflexivity|]. split; [apply flat_length | apply flat_values].
Qed.

End ForecastProperties.

Lemma forecast_total_witness :
  exists f first,
    ForecastEngine.forecast (fun _ _ => []) [(3, 0.5%float); (3, 0.5%float)] 6
    = JS.Return f
    /\ ForecastEngine.low_confidence f = true
    /\ length (ForecastEngine.points f) = 6%nat
    /\ Forall (fun p =>
                 ForecastEngine.predicted_index p
                 = snd (List.last [(3, 0.5%float); (3, 0.5%float)] first)
                 /\ ForecastEngine.lower_bound p
                    = snd (List.last [(3, 0.5%float); (3, 0.5%float)] first)
                 /\ ForecastEngine.upper_bound p
                    = snd (List.last [(3, 0.5%float); (3, 0.5%float)] first))
         (ForecastEngine.points f).
Proof.
  apply (forecast_total (fun _ _ => []) [(3, 0.5%float); (3, 0.5%float)] 6).
  - discriminate.
  - vm_compute. lia.
Defined.

(** * Further properties of the services *)

(** ** More facts about the order on numbers *)

Lemma SFcompare_antisym (x y : spec_float) :
  SFcompare y x = option_map CompOpp (SFcompare x y).
Proof.
  unfold SFcompare.
  destruct x as [sx | sx | | sx mx ex], y as [sy | sy | | sy my ey];
    repeat match goal with s : bool |- _ => destruct s end;
    try reflexivity;
    rewrite ?Pos.compare_cont_spec; cbn [option_map];
    rewrite (Z.compare_antisym ex ey), (Pos.compare_antisym mx my);
    destruct (ex ?= ey)%Z, (mx ?= my)%positive; reflexivity.
Qed.

Lemma SFcompare_refl (x : spec_float) :
  SFcompare x x = match x with S754_nan => None | _ => Some Eq end.
Proof.
  destruct x as [s | s | | s m e]; try destruct s; try reflexivity;
    cbn [SFcompare]; rewrite Z.compare_refl, Pos.compare_cont_spec,
      Pos.compare_refl; reflexivity.
Qed.

Lemma is_nan_false_compare (x y : float) :
  is_nan x = false -> is_nan y = false ->
  exists c, SFcompare (Prim2SF x) (Prim2SF y) = Some c.
Proof.
  unfold is_nan. rewrite !FloatAxioms.eqb_spec. unfold SFeqb.
  rewrite !SFcompare_refl.
  destruct (Prim2SF x) as [sx | sx | | sx mx ex]; try discriminate;
    destruct (Prim2SF y) as [sy | sy | | sy my ey]; try discriminate;
    intros _ _; eexists; reflexivity.
Qed.

Lemma leb_refl (x : float) : is_nan x = false -> (x <=? x)%float = true.
Proof.
  unfold is_nan. rewrite FloatAxioms.eqb_spec, FloatAxioms.leb_spec.
  unfold SFeqb, SFleb. destruct (SFcompare _ _) as [[]|]; easy.
Qed.

Lemma ltb_leb (x y : float) :
  (x <? y)%float = true -> (x <=? y)%float = true.
Proof.
  rewrite FloatAxioms.ltb_spec, FloatAxioms.leb_spec. unfold SFltb, SFleb.
  destruct (SFcompare _ _) as [[]|]; easy.
Qed.

Lemma not_ltb_leb (x y : float) :
  is_nan x = false -> is_nan y = false ->
  (x <? y)%float = false -> (y <=? x)%float = true.
Proof.
  intros Hx Hy. destruct (is_nan_false_compare x y Hx Hy) as [c Hc].
  rewrite FloatAxioms.ltb_spec, FloatAxioms.leb_spec. unfold SFltb, SFleb.
  rewrite (SFcompare_antisym (Prim2SF x) (Prim2SF y)), Hc.
  destruct c; easy.
Qed.

Lemma leb_not_nan (x y : float) :
  (x <=? y)%float = true -> is_nan x = false /\ is_nan y = false.
Proof.
  unfold is_nan. rewrite FloatAxioms.leb_spec, !FloatAxioms.eqb_spec.
  unfold SFleb, SFeqb. rewrite !SFcompare_refl.
  destruct (Prim2SF x) as [sx | sx | | sx mx ex];
    destruct (Prim2SF y) as [sy | sy | | sy my ey];
    cbn; try discriminate; intros _; split; reflexivity.
Qed.

(** [Math.max] and [Math.min] give [NaN] or one of their arguments, which
    bounds both. *)
Lemma Math_max_bounds (a b : float) :
  is_nan (JS.Math_max a b) = true
  \/ ((a <=? JS.Math_max a b)%float = true
      /\ (b <=? JS.Math_max a b)%float = true).
Proof.
  unfold JS.Math_max.
  destruct (is_nan a) eqn:Ha; [left; reflexivity|].
  destruct (is_nan b) eqn:Hb; [left; reflexivity|].
  right. cbn [orb].
  destruct (a <? b)%float eqn:Hab.
  { split; [apply ltb_leb; exact Hab | apply leb_refl; exact Hb]. }
  destruct (b <? a)%float eqn:Hba.
  { split; [apply leb_refl; exact Ha | apply ltb_leb; exact Hba]. }
  destruct (get_sign a).
  - split; [apply not_ltb_leb; assumption | apply leb_refl; exact Hb].
  - split; [apply leb_refl; exact Ha | apply not_ltb_leb; assumption].
Qed.

Lemma Math_min_bounds (a b : float) :
  is_nan (JS.Math_min a b) = true
  \/ ((JS.Math_min a b <=? a)%float = true
      /\ (JS.Math_min a b <=? b)%float = true).
Proof.
  unfold JS.Math_min.
  destruct (is_nan a) eqn:Ha; [left; reflexivity|].
  destruct (is_nan b) eqn:Hb; [left; reflexivity|].
  right. cbn [orb].
  destruct (a <? b)%float eqn:Hab.
  { split; [apply leb_refl; exact Ha | apply ltb_leb; exact Hab]. }
  destruct (b <? a)%float eqn:Hba.
  { split; [apply ltb_leb; exact Hba | apply leb_refl; exact Hb]. }
  destruct (get_sign a).
  - split; [apply leb_refl; exact Ha | apply not_ltb_leb; assumption].
  - split; [apply not_ltb_leb; assumption | apply leb_refl; exact Hb].
Qed.

Lemma Math_max_choice (a b : float) :
  is_nan (JS.Math_max a b) = true
  \/ JS.Math_max a b = a \/ JS.Math_max a b = b.
Proof.
  unfold JS.Math_max.
  destruct (is_nan a || is_nan b); [left; reflexivity|].
  right. destruct (a <? b)%float; [right; reflexivity|].
  destruct (b <? a)%float; [left; reflexivity|].
  destruct (get_sign a); [right | left]; reflexivity.
Qed.

Lemma Math_min_choice (a b : float) :
  is_nan (JS.Math_min a b) = true
  \/ JS.Math_min a b = a \/ JS.Math_min a b = b.
Proof.
  unfold JS.Math_min.
  destruct (is_nan a || is_nan b); [left; reflexivity|].
  right. destruct (a <? b)%float; [left; reflexivity|].
  destruct (b <? a)%float; [right; reflexivity|].
  destruct (get_sign a); [left | right]; reflexivity.
Qed.

(** The clamp [Math.max(lo, Math.min(hi, x))] with [lo <= hi]: [NaN], or
    a number between the bounds. *)
Lemma clamp_max_min (lo hi x : float) :
  (lo <=? hi)%float = true ->
  let r := JS.Math_max lo (JS.Math_min hi x) in
  is_nan r = true \/ ((lo <=? r)%float = true /\ (r <=? hi)%float = true).
Proof.
  intros Hlh r. subst r.
  destruct (Math_max_bounds lo (JS.Math_min hi x)) as [Hn | [Hlo Hm]];
    [left; exact Hn|].
  right. split; [exact Hlo|].
  destruct (Math_max_choice lo (JS.Math_min hi x)) as [Hn | [-> | ->]].
  - apply leb_not_nan in Hlo as [_ Hr]. congruence.
  - exact Hlh.
  - destruct (Math_min_bounds hi x) as [Hn | [Hhi _]]; [|exact Hhi].
    apply leb_not_nan in Hm as [Hr _]. congruence.
Qed.

(** The clamp [Math.min(hi, Math.max(lo, x))] with [lo <= hi]. *)
Lemma clamp_min_max (lo hi x : float) :
  (lo <=? hi)%float = true ->
  let r := JS.Math_min hi (JS.Math_max lo x) in
  is_nan r = true \/ ((lo <=? r)%float = true /\ (r <=? hi)%float = true).
Proof.
  intros Hlh r. subst r.
  destruct (Math_min_bounds hi (JS.Math_max lo x)) as [Hn | [Hhi Hm]];
    [left; exact Hn|].
  right. split; [|exact Hhi].
  destruct (Math_min_choice hi (JS.Math_max lo x)) as [Hn | [-> | ->]].
  - apply leb_not_nan in Hhi as [Hr _]. congruence.
  - exact Hlh.
  - destruct (Math_max_bounds lo x) as [Hn | [Hlo _]]; [|exact Hlo].
    apply leb_not_nan in Hm as [_ Hr]. congruence.
Qed.

(** ** The cache: writes, reads and cleanup *)

Section CacheLaws.
Import JS DataCache.

Context {Value : Type}.

(** X1.  A value written with [set] is read back by [get] under the same
    key and type as long as the clock has advanced by less than the
    duration of the type: the entry then counts one hit, keeps its write
    timestamp and records the time of the access, and the other keys are
    as before the write.  This is so whether or not the writes to
    localStorage go through; the stored copy equals the map when the
    write made by [get] does. *)
Theorem set_then_get_within_duration
    (c : Store Value) (now accessed now' accessed' : Z)
    (key dtype : string) (v : Value) (d : Z) :
  duration_of dtype = Some d ->
  now' - now < d ->
  let read := get (set c now accessed key v dtype) now' accessed' key dtype in
  fst read = Some v
  /\ cache (snd read) !! key = Some (mkCacheEntry v now dtype 1 accessed')
  /\ (forall k, k <> key -> cache (snd read) !! k = cache c !! k)
  /\ (setItem c (S (saves c)) = true ->
      storage (snd read) = cache (snd read)).
Proof.
  intros Hd Hfresh read. subst read.
  unfold get, isCacheValid, set, saveToStorage, with_cache.
  cbn [cache storage setItem saves].
  rewrite lookup_insert_eq, Hd. cbn [timestamp].
  apply Z.ltb_lt in Hfresh. rewrite Hfresh.
  cbn [fst snd cache storage setItem saves data dataType hits].
  split; [reflexivity|]. split; [apply lookup_insert_eq|].
  split; [|intros ->; reflexivity].
  intros k Hk. rewrite !lookup_insert_ne by congruence. reflexivity.
Qed.

(** X2.  A hit does not renew an entry: [get] leaves the data, the write
    timestamp and the stored type as they are, adds one to the hits and
    records the access; so once the duration has passed since the write,
    the next [get] answers null, however recently the entry was read. *)
Theorem get_hit_keeps_timestamp
    (c : Store Value) (now accessed : Z) (key dtype : string)
    (e : CacheEntry Value) :
  cache c !! key = Some e ->
  isCacheValid c now key dtype = true ->
  let read := get c now accessed key dtype in
  fst read = Some (data e)
  /\ cache (snd read) !! key
     = Some (mkCacheEntry (data e) (timestamp e) (dataType e) (hits e + 1)
               accessed)
  /\ forall d now' accessed',
       duration_of dtype = Some d ->
       d <= now' - timestamp e ->
       fst (get (snd read) now' accessed' key dtype) = None.
Proof.
  intros He Hvalid read.
  assert (Hread : read
                  = (Some (data e),
                     saveToStorage
                       (with_cache c
                          (<[key := mkCacheEntry (data e) (timestamp e)
                                      (dataType e) (hits e + 1) accessed]>
                             (cache c))))).
  { subst read. unfold get. rewrite Hvalid, He. reflexivity. }
  rewrite Hread. unfold saveToStorage, with_cache. cbn [fst snd cache storage].
  split; [reflexivity|].
  split; [apply lookup_insert_eq|].
  intros d now' accessed' Hd Hold.
  unfold get, isCacheValid. cbn [cache].
  rewrite lookup_insert_eq, Hd. cbn [timestamp].
  apply Z.ltb_ge in Hold. rewrite Hold. reflexivity.
Qed.

(** What [cleanup] leaves under a key. *)
Lemma cleanup_lookup_Some (c : Store Value) (now : Z) (key : string)
    (e : CacheEntry Value) :
  cache (cleanup c now) !! key = Some e
  <-> cache c !! key = Some e /\ stale now e = false.
Proof.
  unfold cleanup, saveToStorage, with_cache. cbv zeta.
  destruct (0 <? _)%nat; cbn [cache];
    rewrite map_lookup_filter_Some; reflexivity.
Qed.

(** X3.  [cleanup] removes exactly the entries older than the duration of
    the type they were stored with.  It never removes an entry that [get]
    would still serve under that type; an entry whose age equals the
    duration survives [cleanup], although [get] refuses it. *)
Theorem cleanup_keeps_what_get_serves
    (c : Store Value) (now : Z) (key : string) (e : CacheEntry Value) :
  cache c !! key = Some e ->
  (cache (cleanup c now) !! key = Some e
   \/ cache (cleanup c now) !! key = None)
  /\ (cache (cleanup c now) !! key = None
      <-> exists d, duration_of (dataType e) = Some d
                    /\ d < now - timestamp e)
  /\ (isCacheValid c now key (dataType e) = true ->
      cache (cleanup c now) !! key = Some e)
  /\ (duration_of (dataType e) = Some (now - timestamp e) ->
      cache (cleanup c now) !! key = Some e
      /\ isCacheValid c now key (dataType e) = false).
Proof.
  intros He.
  assert (Hkeep : stale now e = false ->
                  cache (cleanup c now) !! key = Some e).
  { intros Hs. apply cleanup_lookup_Some. split; assumption. }
  assert (Hdrop : stale now e = true ->
                  cache (cleanup c now) !! key = None).
  { intros Hs. destruct (cache (cleanup c now) !! key) as [e'|] eqn:He';
      [|reflexivity].
    apply cleanup_lookup_Some in He' as [He' Hs'].
    rewrite He in He'. injection He' as <-. congruence. }
  assert (Hstale : stale now e = true
                   <-> exists d, duration_of (dataType e) = Some d
                                 /\ d < now - timestamp e).
  { unfold stale. destruct (duration_of (dataType e)) as [d|].
    - rewrite Z.ltb_lt. split.
      + intros H. exists d. split; [reflexivity | exact H].
      + intros (d' & [= <-] & H). exact H.
    - split; [discriminate | intros (d' & [=] & _)]. }
  split; [|split; [|split]].
  - destruct (stale now e) eqn:Hs; [right | left]; auto.
  - rewrite <- Hstale. destruct (stale now e) eqn:Hs.
    + split; [reflexivity | auto].
    + rewrite (Hkeep eq_refl). split; discriminate.
  - unfold isCacheValid. rewrite He. intros Hvalid. apply Hkeep.
    unfold stale. destruct (duration_of (dataType e)) as [d|];
      [|reflexivity].
    apply Z.ltb_lt in Hvalid. apply Z.ltb_ge. lia.
  - intros Hd. split.
    + apply Hkeep. unfold stale. rewrite Hd. apply Z.ltb_irrefl.
    + unfold isCacheValid. rewrite He, Hd. apply Z.ltb_irrefl.
Qed.

(** X4.  The copy in localStorage is the map as it is after the
    operation, or as it was before it.  When the two agree before a
    [get], a [set] or a [cleanup], they agree after it if the write to
    localStorage goes through ([cleanup] writes only when it removed an
    entry, and otherwise leaves the map as it was); if the write fails,
    the error is swallowed and the stored copy stays the map as it was
    before the operation. *)
Theorem storage_follows_cache
    (c : Store Value) (now accessed : Z) (key dtype : string) (v : Value) :
  storage c = cache c ->
  let read := snd (get c now accessed key dtype) in
  let written := set c now accessed key v dtype in
  let cleaned := cleanup c now in
  (setItem c (saves c) = true ->
   storage read = cache read
   /\ storage written = cache written
   /\ storage cleaned = cache cleaned)
  /\ (setItem c (saves c) = false ->
      storage read = cache c
      /\ storage written = cache c
      /\ storage cleaned = cache c).
Proof.
  intros Hsync read written cleaned.
  assert (Hcleaned : storage cleaned = cache cleaned
                     \/ (setItem c (saves c) = false
                         /\ storage cleaned = cache c)).
  { subst cleaned. unfold cleanup, saveToStorage, with_cache. cbv zeta.
    set (kept := filter _ (cache c)).
    destruct (Nat.ltb_spec 0 (size (cache c) - size kept)) as [_ | Hnone];
      cbn [storage cache setItem saves].
    - destruct (setItem c (saves c)); [left | right; split]; auto.
    - left. rewrite Hsync. symmetry.
      apply map_subseteq_size_eq; [apply map_filter_subseteq | lia]. }
  assert (Hread : storage read
                  = if setItem c (saves c) then cache read else cache c).
  { subst read. unfold get.
    destruct (isCacheValid c now key dtype) eqn:Hvalid.
    - destruct (cache c !! key) as [e|] eqn:He.
      + unfold saveToStorage, with_cache.
        cbn [snd storage cache setItem saves].
        rewrite Hsync. reflexivity.
      + unfold isCacheValid in Hvalid. rewrite He in Hvalid. discriminate.
    - unfold saveToStorage, with_cache.
      cbn [snd storage cache setItem saves]. rewrite Hsync. reflexivity. }
  assert (Hwritten : storage written
                     = if setItem c (saves c) then cache written else cache c).
  { subst written. unfold set, saveToStorage, with_cache.
    cbn [storage cache setItem saves]. rewrite Hsync. reflexivity. }
  split; intros Hwrite; rewrite Hwrite in Hread, Hwritten.
  - split; [exact Hread|]. split; [exact Hwritten|].
    destruct Hcleaned as [H | [H _]]; [exact H | congruence].
  - split; [exact Hread|]. split; [exact Hwritten|].
    destruct Hcleaned as [H | [_ H]]; [|exact H].
    subst cleaned. revert H. unfold cleanup, saveToStorage, with_cache.
    cbv zeta. set (kept := filter _ (cache c)).
    destruct (Nat.ltb_spec 0 (size (cache c) - size kept)) as [_ | Hnone];
      cbn [storage cache setItem saves].
    + rewrite Hwrite. intros _. exact Hsync.
    + intros _. exact Hsync.
Qed.

End CacheLaws.

Lemma set_then_get_within_duration_witness :
  let c := DataCache.mkStore (Value := nat) ∅ ∅ (fun n => Nat.eqb n 1) 0 in
  let read :=
    DataCache.get
      (DataCache.set c 1000 1000 "NDVI_35.68_139.69" 7%nat "NDVI")
      (1000 + 6 * 86400000) (1000 + 6 * 86400000) "NDVI_35.68_139.69" "NDVI" in
  fst read = Some 7%nat
  /\ DataCache.cache (snd read) !! "NDVI_35.68_139.69"
     = Some (DataCache.mkCacheEntry 7%nat 1000 "NDVI" 1
               (1000 + 6 * 86400000))
  /\ (forall k, k <> "NDVI_35.68_139.69" ->
        DataCache.cache (snd read) !! k = DataCache.cache c !! k)
  /\ (DataCache.setItem c (S (DataCache.saves c)) = true ->
      DataCache.storage (snd read) = DataCache.cache (snd read)).
Proof.
  apply (set_then_get_within_duration
           (DataCache.mkStore ∅ ∅ (fun n => Nat.eqb n 1) 0) 1000 1000
           (1000 + 6 * 86400000) (1000 + 6 * 86400000)
           "NDVI_35.68_139.69" "NDVI" 7%nat (7 * 86400000)).
  - reflexivity.
  - lia.
Defined.

Lemma get_hit_keeps_timestamp_witness :
  let c :=
    DataCache.mkStore
      {[ "NDVI_35.68_139.69" := DataCache.mkCacheEntry 7%nat 1000 "NDVI" 0 1000 ]}
      ∅ (fun _ => true) 0 in
  let read := DataCache.get c 2000 2000 "NDVI_35.68_139.69" "NDVI" in
  fst read = Some 7%nat
  /\ DataCache.cache (snd read) !! "NDVI_35.68_139.69"
     = Some (DataCache.mkCacheEntry 7%nat 1000 "NDVI" (0 + 1) 2000)
  /\ forall d now' accessed',
       DataCache.duration_of "NDVI" = Some d ->
       d <= now' - 1000 ->
       fst (DataCache.get (snd read) now' accessed' "NDVI_35.68_139.69" "NDVI")
       = None.
Proof.
  apply (get_hit_keeps_timestamp
           (DataCache.mkStore
              {[ "NDVI_35.68_139.69"
                 := DataCache.mkCacheEntry 7%nat 1000 "NDVI" 0 1000 ]} ∅
              (fun _ => true) 0)
           2000 2000 "NDVI_35.68_139.69" "NDVI"
           (DataCache.mkCacheEntry 7%nat 1000 "NDVI" 0 1000)).
  - apply lookup_singleton_eq.
  - unfold DataCache.isCacheValid. cbn [DataCache.cache].
    rewrite lookup_singleton_eq. reflexivity.
Defined.

Lemma cleanup_keeps_what_get_serves_witness :
  let e := DataCache.mkCacheEntry 7%nat 1000 "NDVI" 0 1000 in
  let c :=
    DataCache.mkStore {[ "NDVI_35.68_139.69" := e ]} ∅ (fun _ => true) 0 in
  let now := 1000 + 7 * 86400000 in
  (DataCache.cache (DataCache.cleanup c now) !! "NDVI_35.68_139.69" = Some e
   \/ DataCache.cache (DataCache.cleanup c now) !! "NDVI_35.68_139.69" = None)
  /\ (DataCache.cache (DataCache.cleanup c now) !! "NDVI_35.68_139.69" = None
      <-> exists d, DataCache.duration_of (DataCache.dataType e) = Some d
                    /\ d < now - DataCache.timestamp e)
  /\ (DataCache.isCacheValid c now "NDVI_35.68_139.69" (DataCache.dataType e)
      = true ->
      DataCache.cache (DataCache.cleanup c now) !! "NDVI_35.68_139.69" = Some e)
  /\ (DataCache.duration_of (DataCache.dataType e)
      = Some (now - DataCache.timestamp e) ->
      DataCache.cache (DataCache.cleanup c now) !! "NDVI_35.68_139.69" = Some e
      /\ DataCache.isCacheValid c now "NDVI_35.68_139.69"
           (DataCache.dataType e) = false).
Proof.
  apply (cleanup_keeps_what_get_serves
           (DataCache.mkStore
              {[ "NDVI_35.68_139.69"
                 := DataCache.mkCacheEntry 7%nat 1000 "NDVI" 0 1000 ]} ∅
              (fun _ => true) 0)
           (1000 + 7 * 86400000) "NDVI_35.68_139.69"
           (DataCache.mkCacheEntry 7%nat 1000 "NDVI" 0 1000)).
  apply lookup_singleton_eq.
Defined.

Lemma storage_follows_cache_witness :
  let c :=
    DataCache.mkStore
      {[ "NDVI_35.68_139.69" := DataCache.mkCacheEntry 7%nat 1000 "NDVI" 0 1000 ]}
      {[ "NDVI_35.68_139.69" := DataCache.mkCacheEntry 7%nat 1000 "NDVI" 0 1000 ]}
      (fun _ => false) 0 in
  let read := snd (DataCache.get c 2000 2000 "NDVI_35.68_139.69" "NDVI") in
  let written := DataCache.set c 2000 2000 "NDVI_35.68_139.69" 8%nat "NDVI" in
  let cleaned := DataCache.cleanup c 2000 in
  (DataCache.setItem c (DataCache.saves c) = true ->
   DataCache.storage read = DataCache.cache read
   /\ DataCache.storage written = DataCache.cache written
   /\ DataCache.storage cleaned = DataCache.cache cleaned)
  /\ (DataCache.setItem c (DataCache.saves c) = false ->
      DataCache.storage read = DataCache.cache c
      /\ DataCache.storage written = DataCache.cache c
      /\ DataCache.storage cleaned = DataCache.cache c).
Proof.
  apply (storage_follows_cache
           (DataCache.mkStore
              {[ "NDVI_35.68_139.69"
                 := DataCache.mkCacheEntry 7%nat 1000 "NDVI" 0 1000 ]}
              {[ "NDVI_35.68_139.69"
                 := DataCache.mkCacheEntry 7%nat 1000 "NDVI" 0 1000 ]}
              (fun _ => false) 0)
           2000 2000 "NDVI_35.68_139.69" "NDVI" 8%nat).
  reflexivity.
Defined.

(** ** The service: write-through, failures and requests in flight *)

Section ServiceLaws.
Import JS DataCache BloomDataService.

Context {Value : Type}.
Variable Number_toString : float -> string.
Variable truthy : Value -> bool.

#[local] Abbreviation start := (BloomDataService.start Number_toString truthy).
#[local] Abbreviation getBloomData :=
  (BloomDataService.getBloomData Number_toString truthy).
#[local] Abbreviation requestKey latitude longitude :=
  (Number_toString latitude +:+ "_" +:+ Number_toString longitude).

Lemma initialize_isInitialized (s : Service (Value := Value)) (now : Z) :
  isInitialized (initialize s now) = true.
Proof. unfold initialize. destruct (isInitialized s) eqn:H; [exact H | reflexivity]. Qed.

Lemma initialize_requestQueue (s : Service (Value := Value)) (now : Z) :
  requestQueue (initialize s now) = requestQueue s
  /\ refreshQueue (initialize s now) = refreshQueue s.
Proof. unfold initialize. destruct (isInitialized s); split; reflexivity. Qed.

Lemma initialize_idempotent (s : Service (Value := Value)) (now : Z) :
  isInitialized s = true -> initialize s now = s.
Proof. unfold initialize. intros ->. reflexivity. Qed.

(** What a lookup or a write leaves under the other keys. *)
Lemma get_other (c : Store Value) (now accessed : Z) (key dtype k : string) :
  k <> key ->
  cache (snd (get c now accessed key dtype)) !! k = cache c !! k.
Proof.
  intros Hk. unfold get, saveToStorage, with_cache.
  destruct (isCacheValid c now key dtype); [destruct (cache c !! key)|];
    cbn [snd cache]; try reflexivity.
  - apply lookup_insert_ne. congruence.
  - apply lookup_delete_ne. congruence.
Qed.

Lemma set_other (c : Store Value) (now accessed : Z) (key dtype k : string)
    (v : Value) :
  k <> key ->
  cache (set c now accessed key v dtype) !! k = cache c !! k.
Proof.
  intros Hk. unfold set, saveToStorage, with_cache. cbn [cache].
  apply lookup_insert_ne. congruence.
Qed.

(** The entries of a fetch are never under the key of a composed
    answer. *)
Lemma entry_key_not_location (latitude longitude latitude' longitude' : float)
    (e : Entry) :
  generateKey Number_toString latitude' longitude' "LOCATIONS"
  <> entry_key Number_toString latitude longitude e.
Proof.
  destruct e; unfold entry_key, generateKey, entry_type; cbn; discriminate.
Qed.

Lemma fetch_keeps_locations (latitude longitude latitude' longitude' : float)
    (traffic : list Access) :
  forall s : Service (Value := Value),
    cache (dataCache (fetch Number_toString s latitude longitude traffic))
      !! generateKey Number_toString latitude' longitude' "LOCATIONS"
    = cache (dataCache s)
        !! generateKey Number_toString latitude' longitude' "LOCATIONS".
Proof.
  unfold fetch, with_dataCache. cbn [dataCache]. intros s.
  generalize (dataCache s). clear s.
  induction traffic as [|a rest IH]; intros c; cbn [fold_left];
    [reflexivity|].
  rewrite IH. destruct a as [e now accessed | e v now accessed];
    cbn [perform].
  - apply get_other, entry_key_not_location.
  - apply set_other, entry_key_not_location.
Qed.

(** A forced call that finds no request in flight: its fetch is started,
    runs, and the call resumes. *)
Lemma getBloomData_forced (s : Service) (r : Readings)
    (latitude longitude : float) :
  requestQueue s !! requestKey latitude longitude = None ->
  let s0 := initialize s (cleanup_now r) in
  let started :=
    mkService true
      (<[requestKey latitude longitude := fetched r]> (requestQueue s))
      (snd (getCachedNDVIData Number_toString (dataCache s0) (ndvi_now r)
              (ndvi_accessed r) latitude longitude))
      (refreshQueue s) in
  getBloomData s r latitude longitude true
  = (fetched r,
     resume Number_toString
       (fetch Number_toString started latitude longitude (fetch_traffic r))
       r latitude longitude (requestKey latitude longitude) (fetched r)).
Proof.
  intros Hqueue. cbv zeta.
  unfold BloomDataService.getBloomData, start.
  cbn [requestQueue isInitialized dataCache refreshQueue].
  destruct (initialize_requestQueue s (cleanup_now r)) as [-> ->].
  rewrite initialize_isInitialized, Hqueue. reflexivity.
Qed.

(** X5.  Write-through: after a forced refresh whose fetch is fulfilled
    with a truthy value, a later call for the same coordinates without
    forceRefresh, made less than 90 days after the write, answers that
    value from the cache, whatever a new fetch would have given. *)
Theorem getBloomData_second_call_from_cache
    (s : Service) (r1 r2 : Readings) (latitude longitude : float) (v : Value) :
  fetched r1 = Return v ->
  truthy v = true ->
  requestQueue s !! requestKey latitude longitude = None ->
  get_now r2 - set_now r1 < 90 * 86400000 ->
  fst (getBloomData s r1 latitude longitude true) = Return v
  /\ fst (getBloomData (snd (getBloomData s r1 latitude longitude true)) r2
            latitude longitude false) = Return v.
Proof.
  intros Hfetch Htruthy Hqueue Hfresh.
  rewrite (getBloomData_forced s r1 latitude longitude Hqueue).
  rewrite Hfetch. cbn [fst snd]. split; [reflexivity|].
  unfold BloomDataService.getBloomData, start, resume.
  rewrite initialize_idempotent by reflexivity.
  cbn [dataCache isInitialized requestQueue refreshQueue].
  unfold getCachedLocationData, cacheLocationData, get, isCacheValid, set,
    saveToStorage, with_cache.
  cbn [cache storage]. rewrite lookup_insert_eq. cbn [timestamp data].
  change (duration_of "LOCATIONS") with (Some (90 * 86400000)).
  cbv beta iota. apply Z.ltb_lt in Hfresh. rewrite Hfresh.
  cbn [DataCache.data fst]. rewrite Htruthy. reflexivity.
Qed.

(** X6.  A call leaves the request queue as it found it: the entry it adds
    for its own fetch is removed when the fetch settles, whether it was
    fulfilled or rejected. *)
Theorem getBloomData_restores_requestQueue
    (s : Service) (r : Readings) (latitude longitude : float)
    (forceRefresh : bool) :
  requestQueue (snd (getBloomData s r latitude longitude forceRefresh))
  = requestQueue s.
Proof.
  unfold BloomDataService.getBloomData, start.
  destruct (initialize_requestQueue s (cleanup_now r)) as [Hq _].
  destruct (if forceRefresh then _ else _) as [cachedData c].
  cbn [requestQueue isInitialized dataCache refreshQueue]. rewrite Hq.
  destruct (match cachedData with Some d => _ | None => None end);
    [reflexivity|].
  destruct (requestQueue s !! _) as [p|] eqn:Hp; [reflexivity|].
  unfold resume, fetch, with_dataCache.
  destruct (fetched r); cbn [snd requestQueue];
    rewrite delete_insert_eq; apply delete_id; exact Hp.
Qed.

(** X7.  A rejected fetch is not cached: under forceRefresh, when the fetch
    is rejected the call is rejected with the same reason, no composed
    answer is written or changed in the cache (whatever entries of its own
    the fetch wrote before it failed), and no background refresh is
    scheduled. *)
Theorem getBloomData_rejection_not_cached
    (s : Service) (r : Readings) (latitude longitude : float) (e : string) :
  fetched r = Throw e ->
  requestQueue s !! requestKey latitude longitude = None ->
  fst (getBloomData s r latitude longitude true) = Throw e
  /\ (forall latitude' longitude',
        cache (dataCache (snd (getBloomData s r latitude longitude true)))
          !! generateKey Number_toString latitude' longitude' "LOCATIONS"
        = cache (dataCache (initialize s (cleanup_now r)))
            !! generateKey Number_toString latitude' longitude' "LOCATIONS")
  /\ refreshQueue (snd (getBloomData s r latitude longitude true))
     = refreshQueue s.
Proof.
  intros Hfetch Hqueue.
  rewrite (getBloomData_forced s r latitude longitude Hqueue).
  rewrite Hfetch. cbn [fst snd resume dataCache refreshQueue].
  split; [reflexivity|]. split; [|reflexivity].
  intros latitude' longitude'. rewrite fetch_keeps_locations.
  cbn [dataCache]. unfold getCachedNDVIData.
  apply get_other.
  apply (entry_key_not_location latitude longitude latitude' longitude'
           NDVIEntry).
Qed.

(** X8.  forceRefresh does not start a second request: when a request for
    the same coordinates is in flight, a forced call returns that request
    and neither fetches nor writes the cache. *)
Theorem getBloomData_joins_request_in_flight
    (s : Service) (r : Readings) (latitude longitude : float)
    (p : Completion Value) :
  requestQueue s !! requestKey latitude longitude = Some p ->
  getBloomData s r latitude longitude true
  = (p, initialize s (cleanup_now r)).
Proof.
  intros Hqueue.
  unfold BloomDataService.getBloomData, start.
  cbn [requestQueue isInitialized dataCache refreshQueue].
  destruct (initialize_requestQueue s (cleanup_now r)) as [Hq _].
  rewrite <- Hq in Hqueue. rewrite Hqueue. f_equal.
  destruct (initialize s (cleanup_now r)); reflexivity.
Qed.

End ServiceLaws.

(** ** Score, data quality and trend of the classification service *)

Section StatusLaws.
Import JS.

(** The engine's order for a series that holds a [NaN]. *)
Variable engine_places : list float -> list nat.

(** X9.  The bloom score is [NaN] or a number between 0 and 100, whatever
    the index value and the plant and phenology data: the final
    [Math.min(100, Math.max(0, ...))] bounds it. *)
Theorem calculateBloomScore_range
    (ndvi : float) (plantInfo : option PhenologyApi.PlantInfo)
    (phenologyMetrics : option PhenologyApi.PhenologyMetrics) :
  let score := BloomStatus.calculateBloomScore ndvi plantInfo phenologyMetrics in
  is_nan score = true
  \/ ((0 <=? score)%float = true /\ (score <=? 100)%float = true).
Proof.
  unfold BloomStatus.calculateBloomScore. cbv zeta.
  apply clamp_min_max. reflexivity.
Qed.

(** When [x - x] is divided by [x] the quotient is zero or [NaN]: it is
    neither above 0.1 nor below -0.1. *)
Lemma no_change_is_stable (x : float) :
  (0.1 <? (x - x) / x)%float = false /\ ((x - x) / x <? -0.1)%float = false.
Proof.
  rewrite !FloatAxioms.ltb_spec, !FloatAxioms.div_spec, !FloatAxioms.sub_spec.
  remember (Prim2SF 0.1) as above eqn:Ha. vm_compute in Ha. subst above.
  remember (Prim2SF (-0.1)) as below eqn:Hb. vm_compute in Hb. subst below.
  unfold SF64div, SF64sub.
  destruct (Prim2SF x) as [s | s | | s m e].
  - destruct s; split; reflexivity.
  - destruct s; split; reflexivity.
  - split; reflexivity.
  - unfold SFsub. cbv zeta. rewrite Z.sub_diag.
    destruct s; split; reflexivity.
Qed.

Lemma nth_last_app (a : float) (mid : list float) (b d : float) :
  nth (List.length (a :: mid ++ [b]) - 1) (a :: mid ++ [b]) d = b.
Proof.
  replace (List.length (a :: mid ++ [b]) - 1)%nat with (List.length (a :: mid))
    by (cbn [List.length]; rewrite length_app; cbn [List.length]; lia).
  change (a :: mid ++ [b]) with ((a :: mid) ++ [b])%list.
  rewrite app_nth2 by lia. rewrite Nat.sub_diag. reflexivity.
Qed.

(** X10.  [calculateTrend] answers 'Unknown' below two points, and
    otherwise looks only at the first and the last point: the points
    between do not count, and equal end points give 'Stable' (also when
    they are zero, where the relative change is [NaN]).  In
    [compareWithHistorical] the trend therefore compares the last point of
    the series with the one two places before it. *)
Theorem calculateTrend_endpoints :
  (forall data, (List.length data < 2)%nat ->
     HistoricalComparison.calculateTrend data = "Unknown")
  /\ (forall a mid b,
        HistoricalComparison.calculateTrend (a :: mid ++ [b])
        = HistoricalComparison.calculateTrend [a; b])
  /\ (forall a mid,
        HistoricalComparison.calculateTrend (a :: mid ++ [a]) = "Stable")
  /\ (forall currentBloom older p q r,
        HistoricalComparison.trend
          (HistoricalComparison.compareWithHistorical engine_places currentBloom
             (older ++ [p; q; r]))
        = HistoricalComparison.calculateTrend
            [HistoricalComparison.ndvi p; HistoricalComparison.ndvi r]).
Proof.
  assert (Hends : forall a mid b,
             HistoricalComparison.calculateTrend (a :: mid ++ [b])
             = HistoricalComparison.calculateTrend [a; b]).
  { intros a mid b. unfold HistoricalComparison.calculateTrend.
    rewrite nth_last_app.
    replace (List.length (a :: mid ++ [b]) <? 2)%nat with false
      by (symmetry; apply Nat.ltb_ge; cbn [List.length]; rewrite length_app;
          cbn [List.length]; lia).
    reflexivity. }
  split; [|split; [exact Hends|split]].
  - intros data Hlen. unfold HistoricalComparison.calculateTrend.
    apply Nat.ltb_lt in Hlen. rewrite Hlen. reflexivity.
  - intros a mid. rewrite Hends.
    unfold HistoricalComparison.calculateTrend. cbn [List.length nth Nat.ltb Nat.leb Nat.sub].
    destruct (no_change_is_stable a) as [-> ->]. reflexivity.
  - intros currentBloom older p q r.
    unfold HistoricalComparison.compareWithHistorical.
    destruct (older ++ [p; q; r])%list as [|first rest] eqn:Hhist.
    { destruct older; discriminate. }
    cbn [HistoricalComparison.trend]. rewrite <- Hhist.
    unfold HistoricalComparison.slice_last3.
    rewrite map_app, length_app, length_map. cbn [map List.length].
    replace (List.length older + 3 - 3)%nat with (List.length (map HistoricalComparison.ndvi older) + 0)%nat
      by (rewrite length_map; lia).
    rewrite skipn_app, Nat.add_0_r, skipn_all.
    replace (List.length (map HistoricalComparison.ndvi older)
             - List.length (map HistoricalComparison.ndvi older))%nat with 0%nat by lia.
    cbn [skipn app].
    apply (Hends (HistoricalComparison.ndvi p) [HistoricalComparison.ndvi q]
             (HistoricalComparison.ndvi r)).
Qed.

(** X11.  The data quality of an observation is 'Good' exactly when no
    issue is listed; 'Limited' is reported only for the source 'Fallback';
    a fallback source always lists its issue and is never 'Good'; an
    anomaly above 0.2 gives 'Fair', also over a fallback source. *)
Theorem assessDataQuality_levels (ndviData : NasaApi.NDVIData) :
  let quality := BloomStatus.assessDataQuality ndviData in
  (BloomStatus.level quality = "Good" <-> BloomStatus.issues quality = [])
  /\ (BloomStatus.level quality = "Limited" ->
      NasaApi.source ndviData = "Fallback")
  /\ (NasaApi.source ndviData = "Fallback" ->
      In "Using fallback data - real-time data unavailable"
        (BloomStatus.issues quality)
      /\ BloomStatus.level quality <> "Good")
  /\ ((0.2 <? abs (NasaApi.ndviAnomaly ndviData))%float = true ->
      BloomStatus.level quality = "Fair").
Proof.
  unfold BloomStatus.assessDataQuality, Math_abs. cbv zeta.
  destruct (String.eqb_spec (NasaApi.source ndviData) "Fallback") as [Hs|Hs];
    destruct (NasaApi.confidence ndviData <? 0.7)%float;
    destruct (0.2 <? abs (NasaApi.ndviAnomaly ndviData))%float;
    cbn [BloomStatus.level BloomStatus.issues app];
    repeat split; intros;
    first [ reflexivity | discriminate | assumption | contradiction
          | (cbn; tauto) ].
Qed.

Lemma calculateTrend_message (data : list float) :
  exists m,
    In m (map snd HistoricalComparison.trendMessages)
    /\ get_property HistoricalComparison.trendMessages
         (HistoricalComparison.calculateTrend data) = Own m.
Proof.
  unfold HistoricalComparison.calculateTrend.
  destruct (_ <? 2)%nat; [eexists; split; [|reflexivity]; cbn; tauto|].
  destruct (0.1 <? _)%float; [eexists; split; [|reflexivity]; cbn; tauto|].
  destruct (_ <? -0.1)%float; eexists; (split; [|reflexivity]); cbn; tauto.
Qed.

(** The percentile computed from index -1, for every length from 1 to
    199: negative, and in the 'below average' band. *)
Lemma percentile_of_no_index (n : nat) :
  (1 <= n <= 199)%nat ->
  let p := Math_round (of_Z (-1) / of_Z (Z.of_nat n) * 100)%float in
  (p <? 0)%float = true /\ (75 <=? p)%float = false
  /\ (p <=? 25)%float = true.
Proof.
  intros Hn.
  assert (Hall : forallb
                   (fun n =>
                      let p :=
                        Math_round (of_Z (-1) / of_Z (Z.of_nat n) * 100)%float
                      in
                      (p <? 0)%float && negb (75 <=? p)%float
                      && (p <=? 25)%float)
                   (seq 1 199) = true) by (vm_compute; reflexivity).
  rewrite forallb_forall in Hall.
  specialize (Hall n ltac:(apply in_seq; lia)). cbv zeta in Hall.
  apply andb_prop in Hall as [Hall H25]. apply andb_prop in Hall as [H0 H75].
  apply negb_true_iff in H75. cbv zeta. auto.
Qed.

(** X12.  When no value of a history of 1 to 199 points is at least the
    current index value (the current value is above them all), the
    percentile is negative and the comparison reads 'below average'. *)
Theorem compareWithHistorical_above_every_value
    (currentBloom : NasaApi.NDVIData)
    (historicalData : list HistoricalComparison.TrendPoint) :
  (1 <= List.length historicalData <= 199)%nat ->
  Forall (fun d => (NasaApi.ndvi currentBloom <=? HistoricalComparison.ndvi d)%float
                   = false) historicalData ->
  exists p m,
    HistoricalComparison.percentile
      (HistoricalComparison.compareWithHistorical engine_places currentBloom historicalData)
    = Some p
    /\ (p <? 0)%float = true
    /\ In m (map snd HistoricalComparison.trendMessages)
    /\ HistoricalComparison.comparison
         (HistoricalComparison.compareWithHistorical engine_places currentBloom historicalData)
       = "Current blooming is below average and " +:+ m.
Proof.
  intros Hlen Hall.
  destruct historicalData as [|first rest]; [cbn in Hlen; lia|].
  unfold HistoricalComparison.compareWithHistorical.
  cbn [HistoricalComparison.percentile HistoricalComparison.comparison].
  set (values := map HistoricalComparison.ndvi (first :: rest)).
  set (sorted := HistoricalComparison.sort engine_places values).
  assert (Hperm : Permutation sorted values) by apply sort_Permutation.
  assert (Hsorted : Forall (fun v => (NasaApi.ndvi currentBloom <=? v)%float
                                     = false) sorted).
  { rewrite Hperm. subst values. rewrite Forall_map. exact Hall. }
  assert (Hindex : HistoricalComparison.findIndex
                     (fun v => (NasaApi.ndvi currentBloom <=? v)%float) sorted
                   = -1).
  { destruct (findIndex_spec (fun v => (NasaApi.ndvi currentBloom <=? v)%float)
                sorted) as [[Hi _] | (_ & v & Hv & Htest & _)];
      [exact Hi|].
    rewrite Forall_forall in Hsorted.
    apply list_elem_of_lookup_2 in Hv.
    rewrite (Hsorted v Hv) in Htest. discriminate. }
  unfold HistoricalComparison.calculatePercentile. rewrite Hindex.
  assert (Hn : List.length sorted = List.length (first :: rest)).
  { rewrite (Permutation_length Hperm). subst values. apply length_map. }
  rewrite Hn.
  destruct (percentile_of_no_index (List.length (first :: rest)) Hlen)
    as (Hneg & H75 & H25).
  destruct (calculateTrend_message (HistoricalComparison.slice_last3 values))
    as (m & Hm & Hget).
  eexists _, m. split; [reflexivity|]. split; [exact Hneg|].
  split; [exact Hm|].
  unfold HistoricalComparison.generateComparisonMessage.
  rewrite H75, H25, Hget. reflexivity.
Qed.

End StatusLaws.

(** ** The provider and its historical series *)

Section ProviderLaws.
Import JS NasaApi.

Ltac each_month H :=
  apply month_cases in H;
  repeat (destruct H as [H | H]); subst.

(** X13.  The index value of the mock provider is [NaN] or lies in
    [0, 1]; its season and phase are those of the fallback generator for
    the same clock; with the draw 0.5 (no anomaly) its index value is the
    baseline the fallback reports. *)
Theorem mockNDVIFetch_shape
    (now : Clock) (r1 r2 : float) (lat lon : float) :
  let observation := mockNDVIFetch now r1 r2 lat lon in
  let fallback := generateFallbackNDVI now lat lon in
  (is_nan (ndvi observation) = true
   \/ ((0 <=? ndvi observation)%float = true
       /\ (ndvi observation <=? 1)%float = true))
  /\ season observation = season fallback
  /\ seasonPhase observation = seasonPhase fallback
  /\ (1 <= month now <= 12 ->
      ndvi (mockNDVIFetch now 0.5 r2 lat lon) = ndvi fallback).
Proof.
  intros observation fallback. subst observation fallback.
  split; [|split; [reflexivity|split; [reflexivity|]]].
  - unfold mockNDVIFetch. cbn [ndvi]. apply clamp_max_min. reflexivity.
  - intros H. destruct now as [m iso]. cbn [month] in H.
    unfold mockNDVIFetch, generateFallbackNDVI, getSeasonalNDVI,
      getSeasonForLocation.
    cbn [month toISOString ndvi].
    destruct (0 <? lat)%float; each_month H; vm_compute; reflexivity.
Qed.

End ProviderLaws.

Section TrendsLaws.
Import JS NasaApi.

Variable date_text : Z -> option string.
Variable clock_at : Z -> Clock.
Variable fetched_at : Z -> Completion NDVIData.

#[local] Abbreviation observed :=
  (NasaTrends.observed clock_at fetched_at).

(** Whether the date of an iteration is in the range of [Date]. *)
#[local] Abbreviation in_range i :=
  (match date_text i with Some _ => true | None => false end).

(** The point an iteration pushes. *)
#[local] Abbreviation point latitude longitude i :=
  (HistoricalComparison.mkTrendPoint (default "" (date_text i))
     (ndvi (observed latitude longitude i))
     (season (observed latitude longitude i))).

(** The provider never makes the loop throw; a date out of range does. *)
Lemma collect_cases (latitude longitude : float) (indices : list Z) :
  NasaTrends.collect date_text clock_at fetched_at latitude longitude indices
  = if forallb (fun i => in_range i) indices
    then Return (map (fun i => point latitude longitude i) indices)
    else Throw "RangeError".
Proof.
  induction indices as [|i rest IH]; cbn [NasaTrends.collect map forallb].
  - reflexivity.
  - rewrite IH. unfold NasaTrends.observed, fetchNDVIData.
    destruct (fetched_at i); destruct (date_text i);
      destruct (forallb _ rest); reflexivity.
Qed.

Lemma countdown_length (months : Z) :
  List.length (NasaTrends.countdown months) = Z.to_nat (months + 1).
Proof.
  unfold NasaTrends.countdown. rewrite length_map, length_seq.
  reflexivity.
Qed.

Lemma countdown_range (months i : Z) :
  In i (NasaTrends.countdown months) <-> 0 <= i <= months.
Proof.
  unfold NasaTrends.countdown. rewrite in_map_iff. split.
  - intros (k & <- & Hk). apply in_seq in Hk. lia.
  - intros Hi. exists (Z.to_nat (months - i)). split; [lia|].
    apply in_seq. lia.
Qed.

Lemma fetchNDVITrends_cases (latitude longitude : float) (months : Z) :
  NasaTrends.fetchNDVITrends date_text clock_at fetched_at latitude longitude
    months
  = if forallb (fun i => in_range i) (NasaTrends.countdown months)
    then map (fun i => point latitude longitude i) (NasaTrends.countdown months)
    else [].
Proof.
  unfold NasaTrends.fetchNDVITrends. rewrite collect_cases.
  destruct (forallb _ _); reflexivity.
Qed.

(** X14.  [fetchNDVIData] never throws, so the one way into the catch
    branch of [fetchNDVITrends] is a date that [setMonth] has taken out of
    the range of [Date], whose [toISOString] throws.  When every date of
    the loop is in range, the answer has one point per iteration, from
    [months] back to 0, each with the index value and season of the
    provider's observation or, where the provider failed, of the
    fallback: months + 1 points for months >= 0 (13 for the default 12).
    When some date of the loop is out of range, the points collected are
    lost and the answer is the empty series, as it is for a negative
    [months]. *)
Theorem fetchNDVITrends_series (latitude longitude : float) (months : Z) :
  ((forall i, 0 <= i <= months -> exists text, date_text i = Some text) ->
   NasaTrends.fetchNDVITrends date_text clock_at fetched_at latitude longitude
     months
   = map (fun i =>
            HistoricalComparison.mkTrendPoint (default "" (date_text i))
              (ndvi (observed latitude longitude i))
              (season (observed latitude longitude i)))
       (NasaTrends.countdown months)
   /\ List.length
        (NasaTrends.fetchNDVITrends date_text clock_at fetched_at latitude
           longitude months)
      = Z.to_nat (months + 1))
  /\ ((exists i, 0 <= i <= months /\ date_text i = None) ->
      NasaTrends.fetchNDVITrends date_text clock_at fetched_at latitude
        longitude months = [])
  /\ (months < 0 ->
      NasaTrends.fetchNDVITrends date_text clock_at fetched_at latitude
        longitude months = []).
Proof.
  rewrite fetchNDVITrends_cases.
  split; [|split].
  - intros Hrange.
    replace (forallb _ (NasaTrends.countdown months)) with true.
    + split; [reflexivity|]. rewrite length_map. apply countdown_length.
    + symmetry. apply forallb_forall. intros i Hi.
      apply countdown_range in Hi.
      destruct (Hrange i Hi) as [text ->]. reflexivity.
  - intros (i & Hi & Hnone).
    replace (forallb _ (NasaTrends.countdown months)) with false;
      [reflexivity|].
    symmetry. apply not_true_is_false. intros Hall.
    rewrite forallb_forall in Hall.
    specialize (Hall i (proj2 (countdown_range months i) Hi)).
    rewrite Hnone in Hall. discriminate.
  - intros H. unfold NasaTrends.countdown.
    replace (Z.to_nat (months + 1)) with 0%nat by lia.
    destruct (forallb _ _); reflexivity.
Qed.

(** X15.  With the mock provider, or the fallback, every point of the
    historical series carries the season of the current month, whatever
    date the point stands for. *)
Theorem fetchNDVITrends_current_season
    (latitude longitude : float) (months : Z) (m : Z) :
  (forall i, month (clock_at i) = m) ->
  (forall i, (exists e, fetched_at i = Throw e)
             \/ exists r1 r2,
                  fetched_at i
                  = Return (mockNDVIFetch (clock_at i) r1 r2 latitude longitude)) ->
  Forall (fun point =>
            HistoricalComparison.season point
            = name (getSeasonForLocation (mkClock m "") latitude longitude))
    (NasaTrends.fetchNDVITrends date_text clock_at fetched_at latitude
       longitude months).
Proof.
  intros Hmonth Hprovider.
  rewrite fetchNDVITrends_cases.
  destruct (forallb _ _); [|constructor].
  apply Forall_map. apply Forall_forall. intros i _.
  cbn [HistoricalComparison.season].
  assert (Hseason : season (observed latitude longitude i)
                    = name (getSeasonForLocation (clock_at i) latitude
                              longitude)).
  { unfold NasaTrends.observed.
    destruct (Hprovider i) as [[e ->] | (r1 & r2 & ->)]; reflexivity. }
  rewrite Hseason. specialize (Hmonth i).
  destruct (clock_at i) as [mi iso]. cbn [month] in Hmonth. subst mi.
  reflexivity.
Qed.

End TrendsLaws.

(** ** The phenology service *)

Section PhenologyLaws.
Import JS.

Variable member_text : string -> string.

(** X16.  The plant region is 'tropical' exactly when the classifier adds
    its tropical adjustment.  In the tropics the year-round list is
    returned whatever the season, also with no season at all; outside the
    tropics a missing season makes [getCurrentFloweringPlants] and
    [getPlantInformation] throw. *)
Theorem getCurrentFloweringPlants_tropics
    (latitude longitude : float) (season : option string) :
  (PhenologyApi.getPlantRegion latitude longitude = "tropical"
   <-> BloomClassification.latitudeAdjustment latitude = 0.1%float)
  /\ (PhenologyApi.getPlantRegion latitude longitude = "tropical" ->
      exists plants,
        PhenologyApi.getCurrentFloweringPlants latitude longitude season
        = Return (PhenologyApi.PlantList plants)
        /\ map PhenologyApi.name plants
           = ["Hibiscus"; "Bougainvillea"; "Orchid"; "Bird of Paradise";
              "Frangipani"])
  /\ (PhenologyApi.getPlantRegion latitude longitude <> "tropical" ->
      PhenologyApi.getCurrentFloweringPlants latitude longitude None
      = Throw "TypeError"
      /\ PhenologyApi.getPlantInformation member_text latitude longitude None
         = Throw "TypeError").
Proof.
  unfold PhenologyApi.getPlantInformation,
    PhenologyApi.getCurrentFloweringPlants, PhenologyApi.getPlantRegion,
    BloomClassification.latitudeAdjustment, Math_abs.
  cbv zeta.
  destruct (abs latitude <? 23.5)%float.
  - split; [split; reflexivity|]. split.
    + intros _. eexists. split; reflexivity.
    + intros H. contradiction H. reflexivity.
  - destruct (0 <? latitude)%float;
      (split; [split; [discriminate | intros H; vm_compute in H; discriminate]|]);
      (split; [discriminate|]); intros _; split; reflexivity.
Qed.

(** X17.  For each of the four seasons and every location,
    [getPlantInformation] names a species of the table (never
    'Mixed Vegetation'), lists exactly two additional species and has an
    index contribution above 0 and at most 0.2. *)
Theorem getPlantInformation_documented_seasons
    (latitude longitude : float) (s : ClassifierSpec.Season) :
  exists info first second,
    PhenologyApi.getPlantInformation member_text latitude longitude
      (Some (ClassifierSpec.Season_name s)) = Return info
    /\ PhenologyApi.primarySpecies info <> "Mixed Vegetation"
    /\ BloomDataQuality.species_identified (Some info) = true
    /\ PhenologyApi.additionalSpecies info = Some [first; second]
    /\ exists boost,
         PhenologyApi.ndviContribution info = Some boost
         /\ (0 <? boost)%float = true
         /\ (boost <=? 0.2)%float = true.
Proof.
  unfold PhenologyApi.getPlantInformation,
    PhenologyApi.getCurrentFloweringPlants, PhenologyApi.getPlantRegion,
    Math_abs.
  cbv zeta.
  destruct (abs latitude <? 23.5)%float; [|destruct (0 <? latitude)%float];
    destruct s;
    (eexists _, _, _; split; [vm_compute; reflexivity|];
     split; [vm_compute; discriminate|];
     split; [vm_compute; reflexivity|];
     split; [vm_compute; reflexivity|];
     eexists; split; [vm_compute; reflexivity|];
     split; vm_compute; reflexivity).
Qed.

End PhenologyLaws.

Section FallbackQuality.
Import JS NasaApi.

Variable member_text : string -> string.

Ltac each_month H :=
  apply month_cases in H;
  repeat (destruct H as [H | H]); subst.

(** X18.  For the fallback observation of any month and location the
    phenology lookups succeed, and the bloom data service rates the data
    'Good' with score 74 (24 for the confidence 0.6, 10 for the fallback
    source, 20 for the species and 20 for the phenology index), while the
    classification service rates the same observation 'Limited'. *)
Theorem fallback_quality_assessments
    (now : Clock) (latitude longitude : float) :
  1 <= month now <= 12 ->
  let ndviData := generateFallbackNDVI now latitude longitude in
  exists plantInfo phenologyMetrics,
    PhenologyApi.getPlantInformation member_text latitude longitude
      (season ndviData) = Return plantInfo
    /\ PhenologyApi.getPhenologyMetrics (month now) latitude longitude
         (ndvi ndviData) (season ndviData) = Return phenologyMetrics
    /\ BloomDataQuality.assessDataQuality ndviData (Some plantInfo)
         (Some phenologyMetrics)
       = BloomDataQuality.mkQuality 74
           [ "Low satellite data confidence";
             "Estimated data (satellite unavailable)";
             "Regional plant species identified" ]
           "Good"
    /\ BloomStatus.assessDataQuality ndviData
       = BloomStatus.mkDataQuality "Limited" 60
           [ "Low confidence in satellite data";
             "Using fallback data - real-time data unavailable" ]
           (toISOString now).
Proof.
  intros H. destruct now as [m iso]. cbn [month toISOString] in *.
  unfold generateFallbackNDVI, getSeasonalNDVI, getSeasonForLocation,
    PhenologyApi.getPlantInformation, PhenologyApi.getPhenologyMetrics,
    PhenologyApi.getCurrentFloweringPlants, PhenologyApi.getPlantRegion,
    PhenologyApi.calculateStartOfSeason, PhenologyApi.calculatePeakBloom,
    PhenologyApi.calculateEndOfSeason, PhenologyApi.getCurrentPhase,
    Math_abs.
  cbn [month toISOString]. cbv zeta.
  destruct (abs latitude <? 23.5)%float; destruct (0 <? latitude)%float;
    each_month H;
    (eexists _, _; split; [vm_compute; reflexivity|];
     split; [vm_compute; reflexivity|];
     split; vm_compute; reflexivity).
Qed.

End FallbackQuality.

(** ** The cached phenology lookups *)

Section PhenologyCacheLaws.
Import JS DataCache PhenologyCache.

Variable Number_toString : float -> string.
Variable member_text : string -> string.

#[local] Abbreviation key latitude longitude :=
  (generateKey Number_toString latitude longitude "PHENOLOGY").

(** X19.  The two cached phenology lookups overwrite each other.  When
    the plant lookup finds no plant information in the cache it writes
    [{ plantInfo }]; the metrics lookup that follows within 14 days finds
    that entry, without metrics, and replaces it by
    [{ phenologyMetrics }]: the plant information just cached is lost. *)
Theorem phenology_lookups_overwrite_each_other
    (c : Store Cached) (r1 r2 : Readings) (month : Z)
    (latitude longitude ndvi : float) (season : option string)
    (info : PhenologyApi.PlantInfo) (metrics : PhenologyApi.PhenologyMetrics) :
  PhenologyApi.getPlantInformation member_text latitude longitude season
  = Return info ->
  PhenologyApi.getPhenologyMetrics month latitude longitude ndvi season
  = Return metrics ->
  (forall cached,
     fst (getCachedPhenologyData Number_toString c (get_now r1)
            (get_accessed r1) latitude longitude) = Some cached ->
     plantInfo cached = None) ->
  get_now r2 - set_now r1 < 14 * 86400000 ->
  let first :=
    getPlantInformation Number_toString member_text c r1 latitude longitude
      season in
  let second :=
    getPhenologyMetrics Number_toString (snd first) r2 month latitude
      longitude ndvi season in
  fst first = Return info
  /\ cache (snd first) !! key latitude longitude
     = Some (mkCacheEntry (mkCached (Some info) None) (set_now r1)
               "PHENOLOGY" 0 (set_accessed r1))
  /\ fst second = Return metrics
  /\ cache (snd second) !! key latitude longitude
     = Some (mkCacheEntry (mkCached None (Some metrics)) (set_now r2)
               "PHENOLOGY" 0 (set_accessed r2)).
Proof.
  intros Hinfo Hmetrics Hmiss Hfresh first second.
  assert (Hfirst :
            exists c',
              first
              = (Return info,
                 cachePhenologyData Number_toString c' (set_now r1)
                   (set_accessed r1) latitude longitude
                   (mkCached (Some info) None))).
  { subst first. unfold getPlantInformation.
    destruct (getCachedPhenologyData Number_toString c (get_now r1)
                (get_accessed r1) latitude longitude) as [cached c'].
    exists c'. cbn [fst] in Hmiss.
    destruct cached as [[[i|] m]|].
    - specialize (Hmiss _ eq_refl). discriminate.
    - rewrite Hinfo. reflexivity.
    - rewrite Hinfo. reflexivity. }
  destruct Hfirst as [c' Hfirst].
  subst second. rewrite Hfirst. cbn [fst snd].
  split; [reflexivity|].
  split; [unfold cachePhenologyData, set, saveToStorage, with_cache;
          cbn [cache]; apply lookup_insert_eq|].
  unfold getPhenologyMetrics, getCachedPhenologyData, cachePhenologyData, get,
    isCacheValid, set, saveToStorage, with_cache.
  cbn [cache storage]. rewrite lookup_insert_eq. cbn [timestamp].
  change (duration_of "PHENOLOGY") with (Some (14 * 86400000)).
  cbv beta iota. apply Z.ltb_lt in Hfresh. rewrite Hfresh.
  cbn [data plantInfo phenologyMetrics]. rewrite Hmetrics.
  cbn [fst snd cache]. split; [reflexivity|]. apply lookup_insert_eq.
Qed.

End PhenologyCacheLaws.

(** ** The copies of the map component *)

Section MapLaws.
Import JS.

Ltac each_month H :=
  apply month_cases in H;
  repeat (destruct H as [H | H]); subst.

(** X20.  The map component's copies of the season resolver, of the
    seasonal baseline and of the plant region agree with the services' on
    every input, except for the phase: the map's copy always answers
    'Mid', the service's only in the second month of a season. *)
Theorem map_helpers_agree_with_services
    (now : NasaApi.Clock) (lat lng : float) :
  NasaApi.name (WorldMapHelpers.getSeasonForLocation now lat lng)
  = NasaApi.name (NasaApi.getSeasonForLocation now lat lng)
  /\ (forall season,
        WorldMapHelpers.getSeasonalNDVI season lat
        = NasaApi.getSeasonalNDVI season lat)
  /\ WorldMapHelpers.getPlantRegion lat lng
     = PhenologyApi.getPlantRegion lat lng
  /\ (1 <= NasaApi.month now <= 12 ->
      NasaApi.phase (WorldMapHelpers.getSeasonForLocation now lat lng)
      = Some "Mid"
      /\ (NasaApi.phase (NasaApi.getSeasonForLocation now lat lng) = Some "Mid"
          <-> NasaApi.month now mod 3 = 1)).
Proof.
  split; [|split; [reflexivity|split; [reflexivity|]]].
  - unfold WorldMapHelpers.getSeasonForLocation, NasaApi.getSeasonForLocation.
    destruct (0 <? lat)%float;
      (destruct (NasaApi.month now) as [|p|p]; [reflexivity| |reflexivity]);
      repeat (destruct p as [p|p|]; try reflexivity).
  - intros H. destruct now as [m iso]. cbn [NasaApi.month] in *.
    unfold WorldMapHelpers.getSeasonForLocation, NasaApi.getSeasonForLocation.
    cbn [NasaApi.month].
    destruct (0 <? lat)%float; each_month H;
      (split; [reflexivity|]); vm_compute; split; congruence.
Qed.

(** X21.  The index value of the map component's NDVI reading is [NaN]
    or lies in [0.1, 0.9]; in every month of the year its season is a key
    of the map's threshold table, so classifying the reading returns. *)
Theorem map_NDVI_classified
    (now later : NasaApi.Clock) (r1 r2 r3 : float) (lat lng : float) :
  let observation :=
    WorldMapHelpers.getNDVIDataFromNASA now later r1 r2 r3 lat lng in
  (is_nan (WorldMapHelpers.ndvi observation) = true
   \/ ((0.1 <=? WorldMapHelpers.ndvi observation)%float = true
       /\ (WorldMapHelpers.ndvi observation <=? 0.9)%float = true))
  /\ (1 <= NasaApi.month now <= 12 ->
      exists s c,
        WorldMapHelpers.season observation = Some s
        /\ WorldMapSection.classifyBloomIntensity
             (WorldMapHelpers.ndvi observation) s lat = Return c).
Proof.
  intros observation. subst observation. split.
  - unfold WorldMapHelpers.getNDVIDataFromNASA. cbn [WorldMapHelpers.ndvi].
    apply clamp_max_min. reflexivity.
  - intros H. destruct now as [m iso]. cbn [NasaApi.month] in *.
    unfold WorldMapHelpers.getNDVIDataFromNASA. cbn [WorldMapHelpers.season WorldMapHelpers.ndvi].
    set (x := Math_max _ _). clearbody x.
    unfold WorldMapHelpers.getSeasonForLocation. cbn [NasaApi.month].
    destruct (0 <? lat)%float; each_month H;
      (eexists _, _; split; [reflexivity|]; reflexivity).
Qed.

(** X22.  The map component's classifier is monotone as well: for
    a <= b, whenever both classifications return, the level of a is at
    most the level of b. *)
Theorem map_classifyBloomIntensity_monotone
    (season : string) (latitude a b : float)
    (ca cb : WorldMapSection.Classification) :
  (a <=? b)%float = true ->
  WorldMapSection.classifyBloomIntensity a season latitude = Return ca ->
  WorldMapSection.classifyBloomIntensity b season latitude = Return cb ->
  (ClassifierSpec.level_rank (WorldMapSection.level ca)
   <= ClassifierSpec.level_rank (WorldMapSection.level cb))%nat.
Proof.
  intros Hab. unfold WorldMapSection.classifyBloomIntensity.
  assert (Hmono : forall t,
             (ClassifierSpec.level_rank
                (WorldMapSection.level (WorldMapSection.classify_with t a))
              <= ClassifierSpec.level_rank
                   (WorldMapSection.level (WorldMapSection.classify_with t b)))%nat).
  { intros t. unfold WorldMapSection.classify_with.
    destruct (WorldMapSection.peak t <=? a)%float eqn:Hpa.
    { rewrite (leb_trans _ _ _ Hpa Hab). reflexivity. }
    destruct (WorldMapSection.active t <=? a)%float eqn:Haa.
    { rewrite (leb_trans _ _ _ Haa Hab).
      destruct (WorldMapSection.peak t <=? b)%float; vm_compute; lia. }
    destruct (WorldMapSection.low t <=? a)%float eqn:Hla.
    { rewrite (leb_trans _ _ _ Hla Hab).
      destruct (WorldMapSection.peak t <=? b)%float; [vm_compute; lia|].
      destruct (WorldMapSection.active t <=? b)%float; vm_compute; lia. }
    destruct (WorldMapSection.peak t <=? b)%float; [vm_compute; lia|].
    destruct (WorldMapSection.active t <=? b)%float; [vm_compute; lia|].
    destruct (WorldMapSection.low t <=? b)%float; vm_compute; lia. }
  destruct (get_property WorldMapSection.thresholds season);
    intros [= <-] [= <-] || discriminate; apply Hmono.
Qed.

End MapLaws.

Section FallbackLevel.
Import JS NasaApi.

Ltac each_month H :=
  apply month_cases in H;
  repeat (destruct H as [H | H]); subst.

(** X23.  A fallback observation is never classified Peak Bloom: for
    every month and location its level is Dormant, Low Bloom or Active
    Bloom. *)
Theorem fallback_never_classified_Peak
    (now : Clock) (latitude longitude : float) :
  1 <= month now <= 12 ->
  let ndviData := generateFallbackNDVI now latitude longitude in
  exists s,
    season ndviData = Some s
    /\ In (BloomClassification.level
             (BloomClassification.classifyBloomIntensity (ndvi ndviData) s
                latitude))
         ["Dormant"; "Low Bloom"; "Active Bloom"].
Proof.
  intros H. destruct now as [m iso]. cbn [month] in *.
  cbv zeta.
  unfold generateFallbackNDVI, getSeasonalNDVI, getSeasonForLocation.
  cbn [month season ndvi]. cbv zeta.
  destruct (0 <? latitude)%float; each_month H;
    (eexists; split; [reflexivity|];
     rewrite level_classifyBloomIntensity;
     unfold BloomClassification.thresholds,
       BloomClassification.latitudeAdjustment, Math_abs;
     destruct (abs latitude <? 23.5)%float; vm_compute; tauto).
Qed.

End FallbackLevel.

(** ** Concrete instances *)

Lemma getBloomData_second_call_from_cache_witness :
  let s :=
    BloomDataService.mkService false ∅
      (DataCache.mkStore ∅ ∅ (fun _ => true) 0) ∅ in
  let r1 :=
    BloomDataService.mkReadings 1000 1000 1001 1002 1003
      [ BloomDataService.CacheSet BloomDataService.NDVIEntry 5%nat 1500 1501 ]
      (JS.Return 7%nat) 2000 2001 in
  let r2 :=
    BloomDataService.mkReadings 3000 3000 3001 3002 3003 []
      (JS.Throw "Network Error") 4000 4001 in
  fst (BloomDataService.getBloomData JS.toFixed2 (fun _ => true) s r1
         35.68 139.69 true) = JS.Return 7%nat
  /\ fst (BloomDataService.getBloomData JS.toFixed2 (fun _ => true)
            (snd (BloomDataService.getBloomData JS.toFixed2 (fun _ => true) s
                    r1 35.68 139.69 true))
            r2 35.68 139.69 false) = JS.Return 7%nat.
Proof.
  apply (getBloomData_second_call_from_cache JS.toFixed2 (fun _ => true)
           (BloomDataService.mkService false ∅
              (DataCache.mkStore ∅ ∅ (fun _ => true) 0) ∅)
           (BloomDataService.mkReadings 1000 1000 1001 1002 1003
              [ BloomDataService.CacheSet BloomDataService.NDVIEntry 5%nat
                  1500 1501 ]
              (JS.Return 7%nat) 2000 2001)
           (BloomDataService.mkReadings 3000 3000 3001 3002 3003 []
              (JS.Throw "Network Error") 4000 4001)
           35.68 139.69 7%nat).
  - reflexivity.
  - reflexivity.
  - reflexivity.
  - cbn. lia.
Defined.

Lemma getBloomData_rejection_not_cached_witness :
  let s :=
    BloomDataService.mkService true ∅
      (DataCache.mkStore ∅ ∅ (fun _ => true) 0) ∅ in
  let r :=
    BloomDataService.mkReadings 1000 1000 1001 1002 1003
      [ BloomDataService.CacheSet BloomDataService.NDVIEntry 5%nat 1500 1501;
        BloomDataService.CacheGet BloomDataService.PhenologyEntry 1600 1601;
        BloomDataService.CacheSet BloomDataService.PhenologyEntry 6%nat 1700
          1701;
        BloomDataService.CacheGet (BloomDataService.ImageEntry "Spring") 1800
          1801 ]
      (JS.Throw "Failed to fetch bloom data: Network Error") 2000 2001 in
  fst (BloomDataService.getBloomData JS.toFixed2 (fun _ => true) s r
         35.68 139.69 true)
  = JS.Throw "Failed to fetch bloom data: Network Error"
  /\ (forall latitude' longitude',
        DataCache.cache
          (BloomDataService.dataCache
             (snd (BloomDataService.getBloomData JS.toFixed2 (fun _ => true) s
                     r 35.68 139.69 true)))
          !! DataCache.generateKey JS.toFixed2 latitude' longitude' "LOCATIONS"
        = DataCache.cache
            (BloomDataService.dataCache
               (BloomDataService.initialize s (BloomDataService.cleanup_now r)))
            !! DataCache.generateKey JS.toFixed2 latitude' longitude'
                 "LOCATIONS")
  /\ BloomDataService.refreshQueue
       (snd (BloomDataService.getBloomData JS.toFixed2 (fun _ => true) s r
               35.68 139.69 true))
     = BloomDataService.refreshQueue s.
Proof.
  apply (getBloomData_rejection_not_cached JS.toFixed2 (fun _ => true)
           (BloomDataService.mkService true ∅
              (DataCache.mkStore ∅ ∅ (fun _ => true) 0) ∅)
           (BloomDataService.mkReadings 1000 1000 1001 1002 1003
              [ BloomDataService.CacheSet BloomDataService.NDVIEntry 5%nat
                  1500 1501;
                BloomDataService.CacheGet BloomDataService.PhenologyEntry 1600
                  1601;
                BloomDataService.CacheSet BloomDataService.PhenologyEntry
                  6%nat 1700 1701;
                BloomDataService.CacheGet
                  (BloomDataService.ImageEntry "Spring") 1800 1801 ]
              (JS.Throw "Failed to fetch bloom data: Network Error")
              2000 2001)
           35.68 139.69 "Failed to fetch bloom data: Network Error").
  - reflexivity.
  - reflexivity.
Defined.

Lemma getBloomData_joins_request_in_flight_witness :
  let s :=
    BloomDataService.mkService true
      {[ JS.toFixed2 35.68 +:+ "_" +:+ JS.toFixed2 139.69 := JS.Return 7%nat ]}
      (DataCache.mkStore ∅ ∅ (fun _ => true) 0) ∅ in
  let r :=
    BloomDataService.mkReadings 1000 1000 1001 1002 1003 [] (JS.Return 8%nat)
      2000 2001 in
  BloomDataService.getBloomData JS.toFixed2 (fun _ => true) s r 35.68 139.69
    true
  = (JS.Return 7%nat,
     BloomDataService.initialize s (BloomDataService.cleanup_now r)).
Proof.
  apply (getBloomData_joins_request_in_flight JS.toFixed2 (fun _ => true)
           (BloomDataService.mkService true
              {[ JS.toFixed2 35.68 +:+ "_" +:+ JS.toFixed2 139.69
                 := JS.Return 7%nat ]}
              (DataCache.mkStore ∅ ∅ (fun _ => true) 0) ∅)
           (BloomDataService.mkReadings 1000 1000 1001 1002 1003 []
              (JS.Return 8%nat) 2000 2001)
           35.68 139.69 (JS.Return 7%nat)).
  apply lookup_singleton_eq.
Defined.

Lemma compareWithHistorical_above_every_value_witness :
  let currentBloom :=
    NasaApi.mkNDVIData 35.68 139.69 0.9 0 "2024-04-15T00:00:00.000Z" 0.9
      "MODIS" (Some "Spring") (Some "Mid") in
  let historicalData :=
    [ HistoricalComparison.mkTrendPoint "2024-01-15T00:00:00.000Z" 0.5
        (Some "Winter");
      HistoricalComparison.mkTrendPoint "2024-02-15T00:00:00.000Z" 0.3
        (Some "Winter");
      HistoricalComparison.mkTrendPoint "2024-03-15T00:00:00.000Z" 0.7
        (Some "Spring") ] in
  exists p m,
    HistoricalComparison.percentile
      (HistoricalComparison.compareWithHistorical (fun _ => []) currentBloom
         historicalData)
    = Some p
    /\ (p <? 0)%float = true
    /\ In m (map snd HistoricalComparison.trendMessages)
    /\ HistoricalComparison.comparison
         (HistoricalComparison.compareWithHistorical (fun _ => []) currentBloom
            historicalData)
       = "Current blooming is below average and " +:+ m.
Proof.
  apply (compareWithHistorical_above_every_value (fun _ => [])
           (NasaApi.mkNDVIData 35.68 139.69 0.9 0 "2024-04-15T00:00:00.000Z"
              0.9 "MODIS" (Some "Spring") (Some "Mid"))
           [ HistoricalComparison.mkTrendPoint "2024-01-15T00:00:00.000Z" 0.5
               (Some "Winter");
             HistoricalComparison.mkTrendPoint "2024-02-15T00:00:00.000Z" 0.3
               (Some "Winter");
             HistoricalComparison.mkTrendPoint "2024-03-15T00:00:00.000Z" 0.7
               (Some "Spring") ]).
  - cbn. lia.
  - repeat constructor.
Defined.

Lemma fetchNDVITrends_current_season_witness :
  Forall (fun point =>
            HistoricalComparison.season point
            = NasaApi.name
                (NasaApi.getSeasonForLocation (NasaApi.mkClock 4 "") 48.85
                   2.35))
    (NasaTrends.fetchNDVITrends (fun _ => Some "2024-04-15T00:00:00.000Z")
       (fun _ => NasaApi.mkClock 4 "2024-04-15T00:00:00.000Z")
       (fun _ => JS.Throw "Network Error") 48.85 2.35 12).
Proof.
  apply (fetchNDVITrends_current_season
           (fun _ => Some "2024-04-15T00:00:00.000Z")
           (fun _ => NasaApi.mkClock 4 "2024-04-15T00:00:00.000Z")
           (fun _ => JS.Throw "Network Error") 48.85 2.35 12 4).
  - intros i. reflexivity.
  - intros i. left. exists "Network Error". reflexivity.
Defined.

Lemma fallback_quality_assessments_witness :
  let now := NasaApi.mkClock 4 "2024-04-15T00:00:00.000Z" in
  let ndviData := NasaApi.generateFallbackNDVI now 48.85 2.35 in
  exists plantInfo phenologyMetrics,
    PhenologyApi.getPlantInformation (fun _ => "") 48.85 2.35
      (NasaApi.season ndviData) = JS.Return plantInfo
    /\ PhenologyApi.getPhenologyMetrics (NasaApi.month now) 48.85 2.35
         (NasaApi.ndvi ndviData) (NasaApi.season ndviData)
       = JS.Return phenologyMetrics
    /\ BloomDataQuality.assessDataQuality ndviData (Some plantInfo)
         (Some phenologyMetrics)
       = BloomDataQuality.mkQuality 74
           [ "Low satellite data confidence";
             "Estimated data (satellite unavailable)";
             "Regional plant species identified" ]
           "Good"
    /\ BloomStatus.assessDataQuality ndviData
       = BloomStatus.mkDataQuality "Limited" 60
           [ "Low confidence in satellite data";
             "Using fallback data - real-time data unavailable" ]
           (NasaApi.toISOString now).
Proof.
  apply (fallback_quality_assessments (fun _ => "")
           (NasaApi.mkClock 4 "2024-04-15T00:00:00.000Z") 48.85 2.35).
  cbn. lia.
Defined.

Lemma phenology_lookups_overwrite_each_other_witness :
  let c :=
    DataCache.mkStore (Value := PhenologyCache.Cached) ∅ ∅ (fun _ => true) 0 in
  let r1 := PhenologyCache.mkReadings 1000 1001 1002 1003 in
  let r2 := PhenologyCache.mkReadings 2000 2001 2002 2003 in
  let first :=
    PhenologyCache.getPlantInformation JS.toFixed2 (fun _ => "") c r1 48.85
      2.35 (Some "Spring") in
  let second :=
    PhenologyCache.getPhenologyMetrics JS.toFixed2 (snd first) r2 4 48.85 2.35
      0.6 (Some "Spring") in
  exists info metrics,
    fst first = JS.Return info
    /\ DataCache.cache (snd first)
         !! DataCache.generateKey JS.toFixed2 48.85 2.35 "PHENOLOGY"
       = Some (DataCache.mkCacheEntry
                 (PhenologyCache.mkCached (Some info) None) 1002 "PHENOLOGY" 0
                 1003)
    /\ fst second = JS.Return metrics
    /\ DataCache.cache (snd second)
         !! DataCache.generateKey JS.toFixed2 48.85 2.35 "PHENOLOGY"
       = Some (DataCache.mkCacheEntry
                 (PhenologyCache.mkCached None (Some metrics)) 2002
                 "PHENOLOGY" 0 2003).
Proof.
  eexists _, _.
  apply (phenology_lookups_overwrite_each_other JS.toFixed2 (fun _ => "")
           (DataCache.mkStore ∅ ∅ (fun _ => true) 0)
           (PhenologyCache.mkReadings 1000 1001 1002 1003)
           (PhenologyCache.mkReadings 2000 2001 2002 2003)
           4 48.85 2.35 0.6 (Some "Spring")).
  - vm_compute. reflexivity.
  - vm_compute. reflexivity.
  - intros cached H. vm_compute in H. discriminate.
  - cbn. lia.
Defined.

Lemma map_classifyBloomIntensity_monotone_witness :
  (ClassifierSpec.level_rank
     (WorldMapSection.level
        (WorldMapSection.classify_with WorldMapSection.Spring_thresholds 0.3))
   <= ClassifierSpec.level_rank
        (WorldMapSection.level
           (WorldMapSection.classify_with WorldMapSection.Spring_thresholds
              0.9)))%nat.
Proof.
  apply (map_classifyBloomIntensity_monotone "Spring" 48.85 0.3 0.9);
    reflexivity.
Defined.

Lemma fallback_never_classified_Peak_witness :
  let ndviData :=
    NasaApi.generateFallbackNDVI
      (NasaApi.mkClock 7 "2024-07-15T00:00:00.000Z") 48.85 2.35 in
  exists s,
    NasaApi.season ndviData = Some s
    /\ In (BloomClassification.level
             (BloomClassification.classifyBloomIntensity
                (NasaApi.ndvi ndviData) s 48.85))
         ["Dormant"; "Low Bloom"; "Active Bloom"].
Proof.
  apply (fallback_never_classified_Peak
           (NasaApi.mkClock 7 "2024-07-15T00:00:00.000Z") 48.85 2.35).
  cbn. lia.
Defined.
